(** * exercise.ipynb: customizing codebase embeddings with a projection matrix

    A shallow embedding of the code cells of [exercise.ipynb] and the
    properties of them that can be established.  The notebook is an exercise
    template: several functions are stubs that raise [NotImplementedError] and
    the training loop contains placeholder expressions marked TODO.  The
    embedding keeps them as they are in the source, and additionally exposes
    the blanks of the training loop as parameters, so that the loop can also
    be studied for an arbitrary way of filling them in.

    Python floats are IEEE binary64 numbers and are modelled by Rocq's
    primitive floats.  NumPy's global generator and the PyTorch tensor
    library are external to the notebook; they enter through the interfaces
    [NumpyRandom] and [Torch].  The dataset file enters as the element tree
    that [xml.etree.ElementTree] delivers for it. *)

From Stdlib Require Import ZArith Lia Floats Uint63.
From stdpp Require Import base list strings.

(** ** Python exceptions and results *)

(** The built-in exception classes the cells can raise, and [UserError] for
    a class defined by the program, identified by its name. *)
Inductive exn : Type :=
| NotImplementedError
| AttributeError
| TypeError
| ZeroDivisionError
| OverflowError
| ValueError
| IndexError
| RuntimeError
| UserError (cls : string).

Inductive result (A : Type) : Type :=
| Ok (a : A)
| Raise (e : exn).
Arguments Ok {A} a.
Arguments Raise {A} e.

#[global] Instance result_ret : MRet result := @Ok.
#[global] Instance result_bind : MBind result := fun A B k r =>
  match r with
  | Ok a => k a
  | Raise e => Raise e
  end.

#[global] Instance result_fmap : FMap result := fun A B f r =>
  match r with
  | Ok a => Ok (f a)
  | Raise e => Raise e
  end.

Definition returns {A} (r : result A) : Prop := exists a, r = Ok a.

(** ** Python numbers *)

(** [len(...)] converted to a float.  A CPython length is a [Py_ssize_t]
    below [2^63]; its conversion rounds to nearest-even like [of_uint63]. *)
Definition float_of_len (n : nat) : float := of_uint63 (Uint63.of_Z (Z.of_nat n)).

(** [float(z)] for an arbitrary Python int: correctly rounded, and
    [OverflowError] when the int is too large for a binary64 number. *)
Definition py_float_of_int (z : Z) : result float :=
  let f := SF2Prim (binary_normalize prec emax z 0 false) in
  if is_infinity f then Raise OverflowError else Ok f.

(** [int(f)]: truncation toward zero; [OverflowError] on an infinity and
    [ValueError] on a NaN. *)
Definition py_int (f : float) : result Z :=
  match Prim2SF f with
  | S754_zero _ => Ok 0%Z
  | S754_infinity _ => Raise OverflowError
  | S754_nan => Raise ValueError
  | S754_finite s m e =>
      let a := (if 0 <=? e then Zpos m * 2 ^ e else Zpos m / 2 ^ (- e))%Z in
      Ok (if s then (- a)%Z else a)
  end.

(** [x / len(l)] for a float [x]. *)
Definition py_truediv_len (x : float) (n : nat) : result float :=
  match n with
  | O => Raise ZeroDivisionError
  | S _ => Ok (x / float_of_len n)%float
  end.

(** Slices [l[:k]] and [l[k:]]; a negative index counts from the end. *)
Definition py_slice_to {A} (l : list A) (k : Z) : list A :=
  if (k <? 0)%Z then take (length l - Z.to_nat (- k)) l else take (Z.to_nat k) l.

Definition py_slice_from {A} (l : list A) (k : Z) : list A :=
  if (k <? 0)%Z then drop (length l - Z.to_nat (- k)) l else drop (Z.to_nat k) l.

(** [l[start:stop]]: a negative index counts from the end, and both indices
    are clipped to the list. *)
Definition py_slice_index (len : nat) (i : Z) : nat :=
  if (i <? 0)%Z then Z.to_nat (Z.max 0 (Z.of_nat len + i)) else Nat.min (Z.to_nat i) len.

Definition py_slice {A} (l : list A) (start stop : Z) : list A :=
  let a := py_slice_index (length l) start in
  let b := py_slice_index (length l) stop in
  take (b - a) (drop a l).

(** [l[i]] for a non-negative literal [i]. *)
Definition py_getitem {A} (l : list A) (i : nat) : result A :=
  match l !! i with
  | Some x => Ok x
  | None => Raise IndexError
  end.

(** ** Python strings

    A Python string is a sequence of code points.  A character of a Rocq
    string stands for the code point of the same number, so the strings
    treated here are those whose code points lie below 256. *)

Definition newline : Ascii.ascii := Ascii.ascii_of_nat 10.
Definition space : Ascii.ascii := Ascii.ascii_of_nat 32.

(** The one-character string ['\n']. *)
Definition nl : string := String newline EmptyString.

(** [c.isspace()]: the white space of [str.strip()] among the code points
    below 256 is U+0009 to U+000D, U+001C to U+0020, U+0085 and U+00A0. *)
Definition str_isspace (c : Ascii.ascii) : bool :=
  let n := Ascii.nat_of_ascii c in
  ((9 <=? n) && (n <=? 13)) || ((28 <=? n) && (n <=? 32)) || (n =? 133) || (n =? 160).

Fixpoint str_lstrip (s : string) : string :=
  match s with
  | EmptyString => EmptyString
  | String c s' => if str_isspace c then str_lstrip s' else s
  end.

Fixpoint str_rstrip (s : string) : string :=
  match s with
  | EmptyString => EmptyString
  | String c s' =>
      match str_rstrip s' with
      | EmptyString => if str_isspace c then EmptyString else String c EmptyString
      | r => String c r
      end
  end.

(** [s.strip()] *)
Definition str_strip (s : string) : string := str_rstrip (str_lstrip s).

(** [s.split(sep)] for a separator of one character: the pieces between
    the occurrences of [sep], empty pieces included. *)
Fixpoint str_split (sep : Ascii.ascii) (s : string) : list string :=
  match s with
  | EmptyString => [EmptyString]
  | String c s' =>
      if Ascii.eqb c sep then EmptyString :: str_split sep s'
      else match str_split sep s' with
           | w :: ws => String c w :: ws
           | [] => [String c EmptyString]
           end
  end.

(** [sep.join(l)] *)
Fixpoint str_join (sep : string) (l : list string) : string :=
  match l with
  | [] => EmptyString
  | w :: ws =>
      match ws with
      | [] => w
      | _ :: _ => w +:+ sep +:+ str_join sep ws
      end
  end.

(** ** The dataset (cell "Load dataset") *)

(** The dataclass [Example].  Its annotations are not checked when an
    object is built: [user_input] holds whatever the parser read, which is
    [None] for an empty element. *)
Record Example : Type := {
  user_input : option string;
  snippets : list string
}.

(** A training pair: (user input, code snippet, 1 if relevant else 0). *)
Definition pair : Type := string * string * Z.

(** ** The dataset parser (cell "Load dataset")

    [ET.parse(xml_file)] reads the file; the parser starts from the root
    element it delivers.  An element has a tag, the text before its first
    child ([None] when there is none) and its children. *)
#[local] Unset Elimination Schemes.
Inductive Element : Type :=
| Elem (tag : string) (text : option string) (children : list Element).
#[local] Set Elimination Schemes.

Definition tag (e : Element) : string := let (t, _, _) := e in t.
Definition text (e : Element) : option string := let (_, x, _) := e in x.
Definition children (e : Element) : list Element := let (_, _, c) := e in c.

(** [e.findall(name)] and [e.find(name)] for a plain tag name: the children
    of [e] with that tag in document order, and the first of them. *)
Definition findall (e : Element) (name : string) : list Element :=
  filter (fun c => tag c = name) (children e).

Definition find (e : Element) (name : string) : option Element :=
  head (findall e name).

(** [o.text] on the result of [find]: [None] has no attribute [text]. *)
Definition text_of (o : option Element) : result (option string) :=
  match o with
  | Some e => Ok (text e)
  | None => Raise AttributeError
  end.

(** [first_line.split(' ')[1] if len(first_line.split(' ')) > 1 else None] *)
Definition snippet_filename (first_line : string) : result (option string) :=
  if 1 <? length (str_split space first_line)
  then Some <$> py_getitem (str_split space first_line) 1
  else Ok None.

(** The body of the inner loop for a snippet with text [t], up to the
    [append]: the code is what lies between the first and the last line of
    the stripped text.  The file name is computed and not used. *)
Definition snippet_code (t : string) : result string :=
  let snippet_text := str_strip t in
  first_line ← py_getitem (str_split newline snippet_text) 0;
  filename ← snippet_filename first_line;
  let code_lines := py_slice (str_split newline snippet_text) 1 (-1) in
  let code := str_join nl code_lines in
  Ok code.

(** [snippet.text.strip()] fails on [None]. *)
Definition parse_snippet (snippet : Element) : result string :=
  match text snippet with
  | None => Raise AttributeError
  | Some t => snippet_code t
  end.

Fixpoint parse_snippets (l : list Element) (snippets_list : list string)
  : result (list string) :=
  match l with
  | [] => Ok snippets_list
  | snippet :: rest =>
      code ← parse_snippet snippet;
      parse_snippets rest (snippets_list ++ [code])
  end.

(** The body of the outer loop, up to the [append]. *)
Definition parse_example (example : Element) : result Example :=
  user_input ← text_of (find example "user_input");
  match find example "snippets" with
  | None => Raise AttributeError
  | Some s =>
      snippets_list ← parse_snippets (findall s "snippet") [];
      Ok {| user_input := user_input; snippets := snippets_list |}
  end.

Fixpoint parse_examples (l : list Element) (examples : list Example)
  : result (list Example) :=
  match l with
  | [] => Ok examples
  | example :: rest =>
      e ← parse_example example;
      parse_examples rest (examples ++ [e])
  end.

(** [DatasetParser(xml_file).parse()], for the root element of the file. *)
Definition parse (root : Element) : result (list Example) :=
  parse_examples (findall root "example") [].

(** ** The retrieval corpus (cell "Retrieval strategy")

    [all_snippets = []], then two nested [for] loops that [append]. *)
Definition append_snippets (acc : list string) (example : Example) : list string :=
  fold_left (fun acc snippet => acc ++ [snippet]) (snippets example) acc.

Definition all_snippets (dataset : list Example) : list string :=
  fold_left append_snippets dataset [].

(** ** NumPy's global generator *)

(** [random_interval g m] is the legacy generator's draw of an integer in
    [0..m], returned with the successor state. *)
Class NumpyRandom : Type := {
  rng : Type;
  random_interval : rng -> nat -> nat * rng
}.

(** The contract of [random_interval]: the draw does not exceed the bound. *)
Definition in_range `{NumpyRandom} : Prop :=
  forall g m, fst (random_interval g m) <= m.

(** [x[i], x[j] = x[j], x[i]] on a Python list: the right-hand side is read
    first ([x[j]], then [x[i]]), then [x[i]] and [x[j]] are assigned. *)
Definition swap {A} (x : list A) (i j : nat) : result (list A) :=
  match x !! j, x !! i with
  | Some xj, Some xi => Ok (<[j := xi]> (<[i := xj]> x))
  | _, _ => Raise IndexError
  end.

(** [np.random.shuffle(x)] on a list: for [i] from [len(x) - 1] down to [1],
    draw [j] in [0..i] and exchange [x[i]] and [x[j]]. *)
Fixpoint shuffle_from `{NumpyRandom} {A} (i : nat) (g : rng) (x : list A)
  : result (rng * list A) :=
  match i with
  | O => Ok (g, x)
  | S i' =>
      let '(j, g') := random_interval g i in
      x' ← swap x i j;
      shuffle_from i' g' x'
  end.

Definition shuffle `{NumpyRandom} {A} (g : rng) (x : list A) : result (rng * list A) :=
  shuffle_from (length x - 1) g x.

(** ** Construct examples, and the train/validation split *)

(** [example_pairs = []]: the construction of the pairs is left as a TODO. *)
Definition example_pairs (dataset : list Example) : list pair := [].

(** [int(0.8 * len(example_pairs))]; the literal [0.8] denotes the binary64
    number [0x1.999999999999ap-1]. *)
Definition split_index (n : nat) : result Z :=
  py_int (0x1.999999999999ap-1 * float_of_len n)%float.

(** The variables the split cell leaves behind: the advanced generator,
    [example_pairs] (shuffled in place) and the two slices. *)
Record split_vars `{NumpyRandom} : Type := {
  sv_random : rng;
  sv_example_pairs : list pair;
  sv_train_pairs : list pair;
  sv_val_pairs : list pair
}.

Definition split_cell `{NumpyRandom} (g : rng) (example_pairs : list pair)
  : result split_vars :=
  '(g', shuffled) ← shuffle g example_pairs;
  k ← split_index (length shuffled);
  Ok {| sv_random := g';
        sv_example_pairs := shuffled;
        sv_train_pairs := py_slice_to shuffled k;
        sv_val_pairs := py_slice_from shuffled k |}.




(** ** PyTorch *)

(** What the notebook uses of PyTorch.  [tensor_add t u] is [t + u],
    undefined when the shapes cannot be broadcast; [tensor_of_int z] is the
    tensor for a Python int, undefined when the int does not fit 64 bits;
    [item t] is [t.item()], defined
    when [t] has exactly one element; [grad_fn t] is the gradient with
    respect to [P] that [t.backward()] computes, [None] when [t] does not
    require grad; [accumulate_grad] adds it to [P.grad]; [adam_step lr]
    is [optimizer.step()] of [optim.Adam([P], lr=lr)]. *)
Class Torch : Type := {
  tensor : Type;
  adam_state : Type;
  tensor_add : tensor -> tensor -> option tensor;
  tensor_of_float : float -> tensor;
  tensor_of_int : Z -> option tensor;
  item : tensor -> option float;
  grad_fn : tensor -> option tensor;
  accumulate_grad : option tensor -> tensor -> tensor;
  zero_grad : option tensor -> option tensor;
  adam_init : adam_state;
  adam_step : float -> adam_state -> tensor -> option tensor -> tensor * adam_state
}.

(** ** Python values *)

Inductive pyval `{Torch} : Type :=
| VNone
| VInt (z : Z)
| VFloat (x : float)
| VStr (s : string)
| VTensor (t : tensor).

(** A sum of tensors: [RuntimeError] when the shapes do not fit. *)
Definition tensor_sum `{Torch} (t u : tensor) : result pyval :=
  match tensor_add t u with
  | Some r => Ok (VTensor r)
  | None => Raise RuntimeError
  end.

(** A Python int as an operand of a tensor: [OverflowError] when it does
    not fit. *)
Definition int_operand `{Torch} (z : Z) : result tensor :=
  match tensor_of_int z with
  | Some t => Ok t
  | None => Raise OverflowError
  end.

(** [a + b], as used by [train_loss += loss] and [val_loss += ...].  A
    number plus a tensor is computed by the tensor's [__radd__], with the
    tensor as receiver. *)
Definition py_add `{Torch} (a b : pyval) : result pyval :=
  match a, b with
  | VInt x, VInt y => Ok (VInt (x + y))
  | VInt x, VFloat y => fx ← py_float_of_int x; Ok (VFloat (fx + y))
  | VFloat x, VInt y => fy ← py_float_of_int y; Ok (VFloat (x + fy))
  | VFloat x, VFloat y => Ok (VFloat (x + y))
  | VStr x, VStr y => Ok (VStr (x ++ y))
  | VTensor t, VTensor u => tensor_sum t u
  | VTensor t, VFloat y => tensor_sum t (tensor_of_float y)
  | VTensor t, VInt y => u ← int_operand y; tensor_sum t u
  | VFloat x, VTensor u => tensor_sum u (tensor_of_float x)
  | VInt x, VTensor u => t ← int_operand x; tensor_sum u t
  | _, _ => Raise TypeError
  end.

(** [v.item()]: only tensors have the method. *)
Definition py_item `{Torch} (v : pyval) : result float :=
  match v with
  | VTensor t =>
      match item t with
      | Some x => Ok x
      | None => Raise RuntimeError
      end
  | _ => Raise AttributeError
  end.

(** [v.item() / len(pairs)]: the left operand is evaluated first. *)
Definition mean_item `{Torch} (v : pyval) (n : nat) : result float :=
  x ← py_item v;
  py_truediv_len x n.

(** ** The stubs of the notebook *)

Definition similarity `{Torch} (x_i x_c : pyval) : result pyval :=
  Raise NotImplementedError.

Definition similarity_with_projection `{Torch} (x_i x_c P : pyval) : result pyval :=
  Raise NotImplementedError.

Definition loss_func `{Torch} (predictions targets : pyval) : result pyval :=
  Raise NotImplementedError.

Definition retrieve_relevant_snippets `{Torch} (user_input : string) : result pyval :=
  Raise NotImplementedError.

Definition evaluate_retrieval_strategy `{Torch}
  (retrieval_strategy : string -> result pyval) : result pyval :=
  Raise NotImplementedError.

(** ** The training cell *)

(** What an expression of the loop body can read of the session: the current
    value of [P] and whether autograd is recording. *)
Record view `{Torch} : Type := {
  v_P : tensor;
  v_grad_enabled : bool
}.

(** The blanks of the training loop: the right-hand sides of
    [prediction = ...] and [y = ...], and the function bound to the global
    name [loss_func] when the loop runs.  They are expressions and a function
    of their arguments: they read the session but assign nothing in it. *)
Record blanks `{Torch} : Type := {
  b_prediction : view -> pair -> result pyval;
  b_y : view -> pair -> result pyval;
  b_loss_func : view -> pyval -> pyval -> result pyval
}.

(** The notebook as it is: [prediction = 0], [y = 0], and the stub. *)
Definition shipped `{Torch} : blanks := {|
  b_prediction := fun _ _ => Ok (VInt 0);
  b_y := fun _ _ => Ok (VInt 0);
  b_loss_func := fun _ predictions targets => loss_func predictions targets
|}.

(** [lr = 0.1] (the binary64 number [0x1.999999999999ap-4]) and
    [num_epochs = 25]. *)
Definition lr : float := 0x1.999999999999ap-4%float.
Definition num_epochs : nat := 25.

(** Calls into the optimizer and the loss function, in the order made.
    [LossFunc m p] is the call of [loss_func] in the iteration for pair [p],
    made while autograd recording was [m]. *)
Inductive call : Type :=
| ZeroGrad
| LossFunc (grad_mode : bool) (p : pair)
| Backward
| Step.

(** The variables of the session that the training cell reads and writes.
    [stdout] holds, per [print], the epoch, [num_epochs] and the printed
    validation loss; [calls] is the record of calls described above. *)
Record kernel `{Torch} : Type := {
  P : tensor;
  P_grad : option tensor;
  optimizer : adam_state;
  grad_enabled : bool;
  epochs : list Z;
  types : list string;
  losses : list float;
  stdout : list (Z * nat * float);
  calls : list call
}.

(** A piece of a cell: it transforms the session and returns or raises.
    The session survives an exception, as in a notebook. *)
Definition cell `{Torch} (A : Type) : Type := kernel -> kernel * result A.

#[global] Instance cell_ret `{Torch} : MRet cell := fun A a k => (k, Ok a).
#[global] Instance cell_bind `{Torch} : MBind cell := fun A B f m k =>
  match m k with
  | (k', Ok a) => f a k'
  | (k', Raise e) => (k', Raise e)
  end.

Section TrainingCell.
Context `{Torch}.

Definition lift {A} (r : result A) : cell A := fun k => (k, r).

Definition record_call (c : call) : cell unit := fun k =>
  ({| P := P k; P_grad := P_grad k; optimizer := optimizer k;
      grad_enabled := grad_enabled k; epochs := epochs k; types := types k;
      losses := losses k; stdout := stdout k; calls := calls k ++ [c] |}, Ok tt).

Definition set_P_grad (g : option tensor) : cell unit := fun k =>
  ({| P := P k; P_grad := g; optimizer := optimizer k;
      grad_enabled := grad_enabled k; epochs := epochs k; types := types k;
      losses := losses k; stdout := stdout k; calls := calls k |}, Ok tt).

Definition set_grad_enabled (b : bool) (k : kernel) : kernel :=
  {| P := P k; P_grad := P_grad k; optimizer := optimizer k;
     grad_enabled := b; epochs := epochs k; types := types k;
     losses := losses k; stdout := stdout k; calls := calls k |}.

Definition get_kernel : cell kernel := fun k => (k, Ok k).

Definition current_view : cell view := fun k =>
  (k, Ok {| v_P := P k; v_grad_enabled := grad_enabled k |}).

Definition set_parameters (P' : tensor) (o' : adam_state) : cell unit := fun k =>
  ({| P := P'; P_grad := P_grad k; optimizer := o';
      grad_enabled := grad_enabled k; epochs := epochs k; types := types k;
      losses := losses k; stdout := stdout k; calls := calls k |}, Ok tt).

(** [optimizer.zero_grad()] *)
Definition optimizer_zero_grad : cell unit :=
  record_call ZeroGrad;;
  k ← get_kernel;
  set_P_grad (zero_grad (P_grad k)).

(** [train_loss.backward()]: a float has no such method.  Autograd
    raises [RuntimeError] for a tensor that does not require grad, and
    also for one that does not have exactly one element: without an
    argument, [backward] creates the initial gradient for scalar outputs
    only. *)
Definition backward (loss : pyval) : cell unit :=
  match loss with
  | VTensor t =>
      record_call Backward;;
      match grad_fn t, item t with
      | Some g, Some _ =>
          k ← get_kernel;
          set_P_grad (Some (accumulate_grad (P_grad k) g))
      | _, _ => lift (Raise RuntimeError)
      end
  | _ => lift (Raise AttributeError)
  end.

(** [optimizer.step()] *)
Definition optimizer_step : cell unit :=
  record_call Step;;
  k ← get_kernel;
  let '(P', o') := adam_step lr (optimizer k) (P k) (P_grad k) in
  set_parameters P' o'.

(** [with torch.no_grad(): body]: recording is switched off for the body
    and restored on the way out, also when the body raises. *)
Definition no_grad {A} (body : cell A) : cell A := fun k =>
  let '(k', r) := body (set_grad_enabled false k) in
  (set_grad_enabled (grad_enabled k) k', r).

Definition print_validation (epoch : Z) (x : float) : cell unit := fun k =>
  ({| P := P k; P_grad := P_grad k; optimizer := optimizer k;
      grad_enabled := grad_enabled k; epochs := epochs k; types := types k;
      losses := losses k; stdout := stdout k ++ [(epoch, num_epochs, x)];
      calls := calls k |}, Ok tt).

Definition epochs_append (epoch : Z) : cell unit := fun k =>
  ({| P := P k; P_grad := P_grad k; optimizer := optimizer k;
      grad_enabled := grad_enabled k; epochs := epochs k ++ [epoch];
      types := types k; losses := losses k; stdout := stdout k;
      calls := calls k |}, Ok tt).

Definition losses_append (x : float) : cell unit := fun k =>
  ({| P := P k; P_grad := P_grad k; optimizer := optimizer k;
      grad_enabled := grad_enabled k; epochs := epochs k; types := types k;
      losses := losses k ++ [x]; stdout := stdout k; calls := calls k |}, Ok tt).

Variable b : blanks.

(** One iteration of either inner loop: evaluate the two blanks, call
    [loss_func], and return the loss. *)
Definition loss_of_pair (p : pair) : cell pyval :=
  v ← current_view;
  prediction ← lift (b_prediction b v p);
  y ← lift (b_y b v p);
  record_call (LossFunc (v_grad_enabled v) p);;
  lift (b_loss_func b v prediction y).

(** [for pair in train_pairs: ...; loss = loss_func(prediction, y);
    train_loss += loss].  The accumulator starts as the float [0.0], so the
    first addition yields a fresh tensor and the later in-place additions
    update that tensor and no other object; the accumulator is therefore
    passed along as a value. *)
Fixpoint train_loop (train_pairs : list pair) (train_loss : pyval) : cell pyval :=
  match train_pairs with
  | [] => mret train_loss
  | p :: rest =>
      loss ← loss_of_pair p;
      train_loss ← lift (py_add train_loss loss);
      train_loop rest train_loss
  end.

(** [for pair in val_pairs: ...; val_loss += loss_func(prediction, y)] *)
Fixpoint val_loop (val_pairs : list pair) (val_loss : pyval) : cell pyval :=
  match val_pairs with
  | [] => mret val_loss
  | p :: rest =>
      loss ← loss_of_pair p;
      val_loss ← lift (py_add val_loss loss);
      val_loop rest val_loss
  end.

(** The validation pass of an epoch: [val_loss = 0.0] and the loop under
    [torch.no_grad()]. *)
Definition validation_pass (val_pairs : list pair) : cell pyval :=
  no_grad (val_loop val_pairs (VFloat 0)).

(** The training pass of an epoch: [train_loss = 0.0],
    [optimizer.zero_grad()], the loop, [train_loss.backward()] and
    [optimizer.step()]. *)
Definition training_pass (train_pairs : list pair) : cell pyval :=
  optimizer_zero_grad;;
  train_loss ← train_loop train_pairs (VFloat 0);
  backward train_loss;;
  optimizer_step;;
  mret train_loss.

(** The end of an epoch: the [print] of the mean validation loss, then
    [epochs.append(epoch)] and [losses.append(...)] of the mean training
    loss. *)
Definition record_epoch (train_pairs val_pairs : list pair) (epoch : Z)
  (train_loss val_loss : pyval) : cell unit :=
  val_mean ← lift (mean_item val_loss (length val_pairs));
  print_validation epoch val_mean;;
  epochs_append epoch;;
  train_mean ← lift (mean_item train_loss (length train_pairs));
  losses_append train_mean.

(** The body of [for epoch in range(num_epochs)]. *)
Definition epoch_body (train_pairs val_pairs : list pair) (epoch : Z) : cell unit :=
  train_loss ← training_pass train_pairs;
  val_loss ← validation_pass val_pairs;
  record_epoch train_pairs val_pairs epoch train_loss val_loss.

Fixpoint for_each {A} (l : list A) (body : A -> cell unit) : cell unit :=
  match l with
  | [] => mret tt
  | x :: rest => body x;; for_each rest body
  end.

(** [range(n)] *)
Definition range (n : nat) : list Z := map Z.of_nat (seq 0 n).

Definition training_loop (train_pairs val_pairs : list pair) : cell unit :=
  for_each (range num_epochs) (epoch_body train_pairs val_pairs).

(** The session when the loop is entered: [P] holds the sample [P0] of
    [torch.randn(dim, dim, requires_grad=True)], the optimizer is fresh and
    [epochs, types, losses = [], [], []]. *)
Definition initial_kernel (P0 : tensor) : kernel :=
  {| P := P0; P_grad := None; optimizer := adam_init; grad_enabled := true;
     epochs := []; types := []; losses := []; stdout := []; calls := [] |}.

Definition training_cell (train_pairs val_pairs : list pair) (P0 : tensor)
  : kernel * result unit :=
  training_loop train_pairs val_pairs (initial_kernel P0).

End TrainingCell.

(** ** Executable instances of the two interfaces

    They serve to run the cells on concrete inputs. *)

(** A linear congruential generator; the draw is the new state reduced
    modulo [m + 1]. *)
Definition lcg_next (s : Z) : Z := ((1103515245 * s + 12345) mod 2 ^ 31)%Z.

Definition lcg : NumpyRandom := {|
  rng := Z;
  random_interval := fun s m =>
    (Z.to_nat (lcg_next s mod Z.of_nat (S m)), lcg_next s)
|}.

(** Tensors as flat lists of entries with a [requires_grad] flag.
    Addition broadcasts a one-entry tensor and is otherwise defined for
    equal lengths.  The gradient of a recorded scalar is taken to be the
    one-entry tensor [1], and the optimizer is plain gradient descent;
    [adam_state] counts the steps taken. *)
Record flat_tensor : Type := {
  entries : list float;
  requires_grad : bool
}.

Definition flat_add (t u : flat_tensor) : option flat_tensor :=
  let sum :=
    match entries t, entries u with
    | [x], ys => Some (map (fun y => x + y)%float ys)
    | xs, [y] => Some (map (fun x => x + y)%float xs)
    | xs, ys =>
        if length xs =? length ys then Some (zip_with PrimFloat.add xs ys) else None
    end in
  (fun l => {| entries := l; requires_grad := requires_grad t || requires_grad u |})
    <$> sum.

Definition flat_of_float (x : float) : flat_tensor :=
  {| entries := [x]; requires_grad := false |}.

Definition flat_torch : Torch := {|
  tensor := flat_tensor;
  adam_state := nat;
  tensor_add := flat_add;
  tensor_of_float := flat_of_float;
  tensor_of_int := fun z =>
    if ((- 2 ^ 63 <=? z) && (z <? 2 ^ 63))%Z
    then Some (flat_of_float (SF2Prim (binary_normalize prec emax z 0 false)))
    else None;
  item := fun t => match entries t with [x] => Some x | _ => None end;
  grad_fn := fun t => if requires_grad t then Some (flat_of_float 1) else None;
  accumulate_grad := fun G g =>
    match G with
    | Some g0 => default g (flat_add g0 g)
    | None => g
    end;
  zero_grad := fun _ => None;
  adam_init := O;
  adam_step := fun lr o P0 G =>
    match G with
    | Some g =>
        ({| entries := zip_with (fun p d => p - lr * d)%float (entries P0) (entries g);
            requires_grad := requires_grad P0 |}, S o)
    | None => (P0, o)
    end
|}.

(** The notebook with only [loss_func] filled in, by a function that returns
    the one-entry tensor [x], recorded when autograd is recording. *)
Definition constant_loss (x : float) : @blanks flat_torch := {|
  b_prediction := fun _ _ => Ok (VInt 0);
  b_y := fun _ _ => Ok (VInt 0);
  b_loss_func := fun v _ _ =>
    Ok (VTensor ({| entries := [x]; requires_grad := v_grad_enabled v |} : @tensor flat_torch))
|}.

(** The notebook with only [loss_func] filled in, by a function that returns
    [x_on] while autograd is recording and [x_off] while it is not. *)
Definition recording_loss (x_on x_off : float) : @blanks flat_torch := {|
  b_prediction := fun _ _ => Ok (VInt 0);
  b_y := fun _ _ => Ok (VInt 0);
  b_loss_func := fun v _ _ =>
    Ok (VTensor ({| entries := [if v_grad_enabled v then x_on else x_off];
                    requires_grad := v_grad_enabled v |} : @tensor flat_torch))
|}.

(** Sample data. *)
Definition pair_a : pair := ("auth"%string, "def login(): ..."%string, 1%Z).
Definition pair_b : pair := ("auth"%string, "def add(a,b): return a+b"%string, 0%Z).
Definition pair_c : pair := ("math"%string, "def add(a,b): return a+b"%string, 1%Z).
Definition pair_d : pair := ("math"%string, "def login(): ..."%string, 0%Z).
Definition pair_e : pair := ("io"%string, "def read(f): ..."%string, 1%Z).

Definition P_one : @tensor flat_torch := {| entries := [1%float]; requires_grad := true |}.

(** The embeddings and the identity matrix of the two-dimensional scenario:
    [e(q) = [1, 0]], [e(s) = [0, 1]], and [P] the 2x2 identity, row by row. *)
Definition e_q : @pyval flat_torch :=
  VTensor ({| entries := [1; 0]%float; requires_grad := false |} : @tensor flat_torch).
Definition e_s : @pyval flat_torch :=
  VTensor ({| entries := [0; 1]%float; requires_grad := false |} : @tensor flat_torch).
Definition identity_2 : @pyval flat_torch :=
  VTensor ({| entries := [1; 0; 0; 1]%float; requires_grad := false |} : @tensor flat_torch).

(** The notebook with only [loss_func] filled in, by a function that returns
    the Python float [x]. *)
Definition float_loss (x : float) : @blanks flat_torch := {|
  b_prediction := fun _ _ => Ok (VInt 0);
  b_y := fun _ _ => Ok (VInt 0);
  b_loss_func := fun _ _ _ => Ok (VFloat x)
|}.

(** The notebook with only [loss_func] filled in, by a function that returns
    a one-entry tensor, except that it returns [None] while autograd is
    recording once [P] is no longer the one-entry tensor [1]. *)
Definition fragile_loss : @blanks flat_torch := {|
  b_prediction := fun _ _ => Ok (VInt 0);
  b_y := fun _ _ => Ok (VInt 0);
  b_loss_func := fun (v : @view flat_torch) _ _ =>
    let at_start :=
      match entries (v_P v : @tensor flat_torch) with
      | [x] => (x =? 1)%float
      | _ => false
      end in
    if v_grad_enabled v && negb at_start then Ok VNone
    else Ok (VTensor ({| entries := [1%float]; requires_grad := v_grad_enabled v |}
                       : @tensor flat_torch))
|}.

(** The notebook with only [loss_func] filled in, by a function that returns
    a recorded tensor of two entries. *)
Definition wide_loss : @blanks flat_torch := {|
  b_prediction := fun _ _ => Ok (VInt 0);
  b_y := fun _ _ => Ok (VInt 0);
  b_loss_func := fun v _ _ =>
    Ok (VTensor ({| entries := [1; 2]%float; requires_grad := v_grad_enabled v |}
                  : @tensor flat_torch))
|}.

(** The notebook with only [loss_func] filled in, by a function whose
    loss is NaN as long as [P] is the one-entry tensor [1] and 1 afterwards,
    recorded when autograd is recording. *)
Definition diverging_once : @blanks flat_torch := {|
  b_prediction := fun _ _ => Ok (VInt 0);
  b_y := fun _ _ => Ok (VInt 0);
  b_loss_func := fun (v : @view flat_torch) _ _ =>
    let at_start :=
      match entries (v_P v : @tensor flat_torch) with
      | [x] => (x =? 1)%float
      | _ => false
      end in
    Ok (VTensor ({| entries := [if at_start then nan else 1%float];
                    requires_grad := v_grad_enabled v |} : @tensor flat_torch))
|}.



(** A sample document: two examples and a foreign element.  The first
    example has two snippets, a fenced block of two lines of code and an
    empty fenced block; the second has an empty [user_input] element and no
    snippet. *)
Definition sample_code : string :=
  "def f(x):" +:+ nl +:+ "    return sorted(x)".

Definition sample_snippet_text : string :=
  nl +:+ ("```python a.py" +:+ nl +:+ sample_code +:+ nl +:+ "```") +:+ nl.

Definition sample_xml : Element :=
  Elem "dataset" None
    [ Elem "example" None
        [ Elem "user_input" (Some "sort a list") [];
          Elem "snippets" None
            [ Elem "snippet" (Some sample_snippet_text) [];
              Elem "snippet" (Some ("```b.py" +:+ nl +:+ "```")) [] ] ];
      Elem "comment" (Some "not an example") [];
      Elem "example" None
        [ Elem "user_input" None [];
          Elem "snippets" None [] ] ].

(** ** Notions used in the statements *)

(** Number of entries of [l] equal to [s]. *)
Definition occurrences (s : string) (l : list string) : nat :=
  length (filter (fun x => x = s) l).

(** The exchange of two positions, as a map on indices. *)
Definition transpose (i j k : nat) : nat :=
  if decide (k = i) then j else if decide (k = j) then i else k.

(** The mantissa of the binary64 number written [0.8]:
    [5 * mantissa_0_8 = 4 * 2^53 + 2]. *)
Definition mantissa_0_8 : Z := 7205759403792794.

#[global] Instance call_eq_dec : EqDecision call.
Proof. solve_decision. Defined.

Section TrainingNotions.
Context `{Torch} (b : blanks).

(** What the loops compute, as functions of the session they start in. *)

Definition pair_loss (v : view) (p : pair) : result pyval :=
  prediction ← b_prediction b v p;
  y ← b_y b v p;
  b_loss_func b v prediction y.

Fixpoint sum_losses (v : view) (pairs : list pair) (acc : pyval) : result pyval :=
  match pairs with
  | [] => Ok acc
  | p :: rest =>
      loss ← pair_loss v p;
      acc' ← py_add acc loss;
      sum_losses v rest acc'
  end.

(** The training loss of an epoch that starts with parameter [P0], and the
    validation loss computed with parameter [P0]. *)
Definition train_loss_at (train_pairs : list pair) (P0 : tensor) : result pyval :=
  sum_losses {| v_P := P0; v_grad_enabled := true |} train_pairs (VFloat 0).

Definition val_loss_at (val_pairs : list pair) (P0 : tensor) : result pyval :=
  sum_losses {| v_P := P0; v_grad_enabled := false |} val_pairs (VFloat 0).

Definition train_mean_at (train_pairs : list pair) (P0 : tensor) : result float :=
  l ← train_loss_at train_pairs P0;
  mean_item l (length train_pairs).

Definition val_mean_at (val_pairs : list pair) (P0 : tensor) : result float :=
  l ← val_loss_at val_pairs P0;
  mean_item l (length val_pairs).

(** The gradient that reaches [P.grad] in an epoch and the parameters
    after its optimizer step. *)
Definition epoch_grad (train_pairs : list pair) (P0 : tensor) (G : option tensor)
  : option tensor :=
  match train_loss_at train_pairs P0 with
  | Ok (VTensor t) =>
      match grad_fn t with
      | Some g => Some (accumulate_grad (zero_grad G) g)
      | None => zero_grad G
      end
  | _ => zero_grad G
  end.

Definition epoch_update (train_pairs : list pair)
  (s : tensor * option tensor * adam_state) : tensor * option tensor * adam_state :=
  let '(P0, G, o) := s in
  let G' := epoch_grad train_pairs P0 G in
  let '(P', o') := adam_step lr o P0 G' in
  (P', G', o').

(** Parameter, gradient and optimizer state at the start of epoch [e]. *)
Definition params_at (train_pairs : list pair) (P0 : tensor) (e : nat)
  : tensor * option tensor * adam_state :=
  Nat.iter e (epoch_update train_pairs) (P0, None, adam_init).

Definition P_at (train_pairs : list pair) (P0 : tensor) (e : nat) : tensor :=
  fst (fst (params_at train_pairs P0 e)).

(** The calls of one epoch. *)
Definition epoch_calls (train_pairs val_pairs : list pair) : list call :=
  [ZeroGrad] ++ map (LossFunc true) train_pairs ++ [Backward; Step]
  ++ map (LossFunc false) val_pairs.

Definition view_of (k : kernel) : view :=
  {| v_P := P k; v_grad_enabled := grad_enabled k |}.

Definition add_calls (cs : list call) (k : kernel) : kernel :=
  {| P := P k; P_grad := P_grad k; optimizer := optimizer k;
     grad_enabled := grad_enabled k; epochs := epochs k; types := types k;
     losses := losses k; stdout := stdout k; calls := calls k ++ cs |}.

(** The calls of [loss_func] a loop makes until it ends or raises. *)
Definition pair_calls (v : view) (p : pair) : list call :=
  match b_prediction b v p with
  | Ok _ =>
      match b_y b v p with
      | Ok _ => [LossFunc (v_grad_enabled v) p]
      | Raise _ => []
      end
  | Raise _ => []
  end.

Fixpoint loop_calls (v : view) (pairs : list pair) (acc : pyval) : list call :=
  match pairs with
  | [] => []
  | p :: rest =>
      pair_calls v p ++
      match pair_loss v p with
      | Ok loss =>
          match py_add acc loss with
          | Ok acc' => loop_calls v rest acc'
          | Raise _ => []
          end
      | Raise _ => []
      end
  end.

(** The session after a training pass whose loss [t] has gradient [g]. *)
Definition trained (train_pairs : list pair) (g : tensor) (k : kernel) : kernel :=
  let G := Some (accumulate_grad (zero_grad (P_grad k)) g) in
  {| P := fst (adam_step lr (optimizer k) (P k) G);
     P_grad := G;
     optimizer := snd (adam_step lr (optimizer k) (P k) G);
     grad_enabled := grad_enabled k; epochs := epochs k; types := types k;
     losses := losses k; stdout := stdout k;
     calls := calls k ++ [ZeroGrad] ++ map (LossFunc (grad_enabled k)) train_pairs
              ++ [Backward; Step] |}.

Variables (train_pairs val_pairs : list pair) (P0 : tensor).

(** Epoch [e] can run to its end: its training loss is a tensor with a
    gradient and a single entry, and so is, gradient apart, the validation
    loss computed after its optimizer step. *)
Definition epoch_ready (e : nat) : Prop :=
  (exists t g x,
      train_loss_at train_pairs (P_at train_pairs P0 e) = Ok (VTensor t)
      /\ grad_fn t = Some g /\ item t = Some x)
  /\ (exists t x,
        val_loss_at val_pairs (P_at train_pairs P0 (S e)) = Ok (VTensor t)
        /\ item t = Some x).

(** The session at the start of epoch [e] of an undisturbed run. *)
Record at_epoch (e : nat) (k : kernel) : Prop := {
  ae_params : (P k, P_grad k, optimizer k) = params_at train_pairs P0 e;
  ae_grad_enabled : grad_enabled k = true;
  ae_epochs : epochs k = range e;
  ae_types : types k = [];
  ae_losses :
    Ok <$> losses k
    = (fun i => train_mean_at train_pairs (P_at train_pairs P0 i)) <$> seq 0 e;
  ae_stdout :
    (fun o => (o.1, Ok (A:=float) o.2)) <$> stdout k
    = (fun i => ((Z.of_nat i, num_epochs),
                 val_mean_at val_pairs (P_at train_pairs P0 (S i)))) <$> seq 0 e;
  ae_calls : calls k = concat (replicate e (epoch_calls train_pairs val_pairs))
}.

End TrainingNotions.

(** *** Strings *)

(** Number of occurrences of [c] in [s]. *)
Fixpoint str_count (c : Ascii.ascii) (s : string) : nat :=
  match s with
  | EmptyString => 0
  | String c' s' => (if Ascii.eqb c' c then 1 else 0) + str_count c s'
  end.

Fixpoint all_space (s : string) : bool :=
  match s with
  | EmptyString => true
  | String c s' => str_isspace c && all_space s'
  end.

Definition str_first (s : string) : option Ascii.ascii :=
  match s with
  | EmptyString => None
  | String c _ => Some c
  end.

Fixpoint str_last (s : string) : option Ascii.ascii :=
  match s with
  | EmptyString => None
  | String c s' =>
      match s' with
      | EmptyString => Some c
      | String _ _ => str_last s'
      end
  end.

(** [s] is not empty and begins, respectively ends, with a character that
    is not white space; [s] holds no newline. *)
Definition starts_nonspace (s : string) : bool :=
  match str_first s with
  | Some c => negb (str_isspace c)
  | None => false
  end.

Definition ends_nonspace (s : string) : bool :=
  match str_last s with
  | Some c => negb (str_isspace c)
  | None => false
  end.

Definition one_line (s : string) : bool := str_count newline s =? 0.

(** *** The parser *)

(** The [snippet] elements [parse] visits for an [example] element. *)
Definition snippet_elements (example : Element) : list Element :=
  match find example "snippets" with
  | Some s => findall s "snippet"
  | None => []
  end.

(** All of them, in document order. *)
Definition document_snippets (root : Element) : list Element :=
  concat (map snippet_elements (findall root "example")).

(** An [example] element has what [parse] dereferences: a [user_input]
    child, a [snippets] child, and a text in every [snippet] visited. *)
Definition well_formed (example : Element) : Prop :=
  is_Some (find example "user_input") /\ is_Some (find example "snippets")
  /\ Forall (fun snippet => is_Some (text snippet)) (snippet_elements example).

(** [code] is the code taken from the text of [snippet]. *)
Definition snippet_parsed (snippet : Element) (code : string) : Prop :=
  exists t, text snippet = Some t /\ snippet_code t = Ok code.

(** [o] is the object built from [example]: the text of its first
    [user_input] child and the codes of its snippets, in order. *)
Definition example_parsed (example : Element) (o : Example) : Prop :=
  (exists u, find example "user_input" = Some u /\ user_input o = text u)
  /\ Forall2 snippet_parsed (snippet_elements example) (snippets o).

(** *** The shuffle *)

(** The generator after the draws with the bounds [bounds], in order. *)
Definition after_draws `{NumpyRandom} (g : rng) (bounds : list nat) : rng :=
  fold_left (fun g m => snd (random_interval g m)) bounds g.

(** *** Any run of the training cell *)

(** Number of calls [c] recorded in the session. *)
Definition count_call `{Torch} (c : call) (k : kernel) : nat :=
  length (filter (fun x => x = c) (calls k)).

Definition is_loss_call (c : call) : bool :=
  match c with
  | LossFunc _ _ => true
  | _ => false
  end.

(** The exceptions the statements of the training cell raise themselves:
    [AttributeError] and [RuntimeError] from [backward] and [item],
    [TypeError], [OverflowError] and [RuntimeError] from [+=]. *)
Definition own_error (e : exn) : Prop :=
  e = AttributeError \/ e = RuntimeError \/ e = TypeError \/ e = OverflowError.

(** How far an epoch got from session [k] to session [k'] with result [r]:
    [s] is 0 when it stopped before [backward] was entered, 1 when
    [backward] raised, 2 after the optimizer step, 4 after the [print] and
    [epochs.append], and 5 at its end. *)
Record epoch_progress `{Torch} (epoch : Z) (k k' : kernel) (r : result unit) (s : nat)
  : Prop := {
  ep_result : r = Ok tt <-> s = 5;
  ep_bound : s <= 5;
  ep_types : types k' = types k;
  ep_grad_enabled : grad_enabled k' = grad_enabled k;
  ep_zero_grad : count_call ZeroGrad k' = S (count_call ZeroGrad k);
  ep_backward : count_call Backward k' = count_call Backward k + (if 1 <=? s then 1 else 0);
  ep_step : count_call Step k' = count_call Step k + (if 2 <=? s then 1 else 0);
  ep_stdout :
    exists x, stdout k' = stdout k ++ (if 3 <=? s then [(epoch, num_epochs, x)] else []);
  ep_epochs : epochs k' = epochs k ++ (if 4 <=? s then [epoch] else []);
  ep_losses : exists y, losses k' = losses k ++ (if 5 <=? s then [y] else [])
}.

(** The session between two epochs, [n] of them done. *)
Record in_step `{Torch} (n : nat) (k : kernel) : Prop := {
  is_zero_grad : count_call ZeroGrad k = n;
  is_backward : count_call Backward k = n;
  is_step : count_call Step k = n;
  is_stdout : length (stdout k) = n;
  is_epochs : epochs k = range n;
  is_losses : length (losses k) = n;
  is_types : types k = [];
  is_grad_enabled : grad_enabled k = true
}.

(** The session after epoch [n] stopped at progress [s]. *)
Record stopped `{Torch} (n s : nat) (k : kernel) : Prop := {
  st_zero_grad : count_call ZeroGrad k = S n;
  st_backward : count_call Backward k = n + (if 1 <=? s then 1 else 0);
  st_step : count_call Step k = n + (if 2 <=? s then 1 else 0);
  st_stdout : length (stdout k) = n + (if 3 <=? s then 1 else 0);
  st_epochs : epochs k = range (n + (if 4 <=? s then 1 else 0));
  st_losses : length (losses k) = n;
  st_types : types k = [];
  st_grad_enabled : grad_enabled k = true
}.

(** * Properties *)

(** ** Binary64 arithmetic of the split index

    [0.8 * len] is a rounded product; the lemmas below follow the rounding
    of [SpecFloat] far enough to show that truncating it gives the integer
    part of [4 * len / 5]. *)

Section Binary64.
Local Open Scope Z_scope.

Lemma digits2_pos_size p : digits2_pos p = Pos.size p.
Proof. induction p; simpl; congruence. Qed.

Lemma Zdigits2_log2 p : Zdigits2 (Zpos p) = Z.log2 (Zpos p) + 1.
Proof. simpl. rewrite digits2_pos_size. destruct p; simpl; lia. Qed.

Lemma Zdigits2_bounds p :
  2 ^ (Zdigits2 (Zpos p) - 1) <= Zpos p < 2 ^ Zdigits2 (Zpos p).
Proof.
  rewrite Zdigits2_log2.
  replace (Z.log2 (Z.pos p) + 1 - 1) with (Z.log2 (Z.pos p)) by lia.
  replace (Z.log2 (Z.pos p) + 1) with (Z.succ (Z.log2 (Z.pos p))) by lia.
  apply Z.log2_spec. lia.
Qed.

Lemma Zdigits2_unique p d : 2 ^ (d - 1) <= Zpos p < 2 ^ d -> Zdigits2 (Zpos p) = d.
Proof.
  intros Hb. rewrite Zdigits2_log2.
  assert (0 <= d - 1).
  { destruct (Z_lt_le_dec (d - 1) 0) as [Hn|]; [|assumption].
    assert (2 ^ d <= 1).
    { destruct (Z.eq_dec d 0) as [->|]; [simpl; lia|].
      rewrite Z.pow_neg_r by lia. lia. }
    lia. }
  rewrite (Z.log2_unique (Zpos p) (d - 1)); [lia|lia|].
  replace (Z.succ (d - 1)) with d by lia. assumption.
Qed.

Lemma shr_1_half mrs : 0 <= shr_m mrs -> shr_m (shr_1 mrs) = shr_m mrs / 2.
Proof.
  destruct mrs as [m r s]; simpl. intros Hm.
  destruct m as [|p|p]; [reflexivity| |lia].
  destruct p; simpl shr_m.
  - rewrite Pos2Z.inj_xI. apply Z.div_unique with 1; lia.
  - rewrite Pos2Z.inj_xO. apply Z.div_unique with 0; lia.
  - reflexivity.
Qed.

Lemma iter_pos_shr_1 p : forall mrs, 0 <= shr_m mrs ->
  shr_m (SpecFloat.iter_pos shr_1 p mrs) = shr_m mrs / 2 ^ Zpos p.
Proof.
  induction p as [p IH|p IH|]; intros mrs Hm; simpl SpecFloat.iter_pos.
  - assert (H1 : 0 <= shr_m (shr_1 mrs))
      by (rewrite shr_1_half by assumption; apply Z.div_pos; lia).
    assert (H2 : 0 <= shr_m (SpecFloat.iter_pos shr_1 p (shr_1 mrs)))
      by (rewrite IH by assumption; apply Z.div_pos; lia).
    rewrite IH, IH, shr_1_half by assumption.
    rewrite !Z.div_div by lia. f_equal.
    rewrite Pos2Z.inj_xI, <- !Z.pow_add_r, <- Z.pow_succ_r by lia. f_equal. lia.
  - assert (H2 : 0 <= shr_m (SpecFloat.iter_pos shr_1 p mrs))
      by (rewrite IH by assumption; apply Z.div_pos; lia).
    rewrite IH, IH by assumption.
    rewrite !Z.div_div by lia. f_equal.
    rewrite Pos2Z.inj_xO, <- !Z.pow_add_r by lia. f_equal. lia.
  - rewrite shr_1_half by assumption. reflexivity.
Qed.

Lemma fexp_normal d : emin <= d - prec -> fexp prec emax d = d - prec.
Proof. intros Hd. unfold fexp. fold emin. lia. Qed.

(** Rounding a mantissa of exactly [prec] digits changes nothing. *)
Lemma binary_round_aux_exact m e :
  Zdigits2 (Zpos m) = prec -> emin <= e <= emax - prec ->
  binary_round_aux prec emax false (Zpos m) e loc_Exact = S754_finite false m e.
Proof.
  intros Hd He. unfold binary_round_aux, shr_fexp.
  rewrite Hd, fexp_normal by lia.
  replace (prec + e - prec - e) with 0 by lia.
  cbn [shr shr_record_of_loc shr_m loc_of_shr_record round_nearest_even].
  rewrite Hd, fexp_normal by lia.
  replace (prec + e - prec - e) with 0 by lia. cbn [shr shr_record_of_loc shr_m].
  destruct (Z.leb_spec e (emax - prec)); [reflexivity|lia].
Qed.

Lemma round_nearest_even_cases q l :
  round_nearest_even q l = q \/ round_nearest_even q l = q + 1.
Proof. destruct l as [|[]]; simpl; auto. destruct (Z.even q); auto. Qed.

(** Rounding a longer mantissa keeps its leading [prec] digits [q] or
    takes [q + 1]; [t] is the extra shift when [q + 1] is [2 ^ prec]. *)
Lemma binary_round_aux_inexact m e :
  let D := Zdigits2 (Zpos m) in
  prec < D -> emin <= D + e - prec -> e + (D - prec) + 1 <= emax - prec ->
  exists m' e' t,
    binary_round_aux prec emax false (Zpos m) e loc_Exact = S754_finite false m' e' /\
    (t = 0 \/ t = 1) /\ e' = e + (D - prec) + t /\
    (Zpos m' * 2 ^ t = Zpos m / 2 ^ (D - prec) \/
     Zpos m' * 2 ^ t = Zpos m / 2 ^ (D - prec) + 1).
Proof.
  intros D HD Hmin Hmax. unfold binary_round_aux, shr_fexp. fold D.
  rewrite fexp_normal by lia.
  replace (D + e - prec - e) with (D - prec) by lia.
  destruct (D - prec) as [|s|s] eqn:Hs; try lia.
  cbn [shr]. set (mrs := SpecFloat.iter_pos shr_1 s _).
  assert (Hq : shr_m mrs = Zpos m / 2 ^ Zpos s).
  { unfold mrs. rewrite iter_pos_shr_1; simpl; [reflexivity|lia]. }
  set (q := Zpos m / 2 ^ Zpos s) in *.
  assert (Hqb : 2 ^ (prec - 1) <= q < 2 ^ prec).
  { pose proof (Zdigits2_bounds m) as Hb. fold D in Hb.
    assert (HD' : D = prec + Zpos s) by lia.
    unfold q. split.
    - apply Z.div_le_lower_bound; [lia|].
      rewrite <- Z.pow_add_r by (unfold prec; lia).
      replace (Z.pos s + (prec - 1)) with (D - 1) by lia. lia.
    - apply Z.div_lt_upper_bound; [lia|].
      rewrite <- Z.pow_add_r by (unfold prec; lia).
      replace (Z.pos s + prec) with D by lia. lia. }
  rewrite Hq. set (q2 := round_nearest_even q _).
  assert (Hq2 : q2 = q \/ q2 = q + 1) by apply round_nearest_even_cases.
  assert (Hpos : 0 < q2) by (unfold prec in *; simpl in Hqb; lia).
  destruct q2 as [|m2|m2] eqn:Em2; try lia.
  destruct (Z_lt_le_dec (Zpos m2) (2 ^ prec)) as [Hlt|Hge].
  - assert (Hd2 : Zdigits2 (Zpos m2) = prec) by (apply Zdigits2_unique; lia).
    rewrite Hd2, fexp_normal by lia.
    replace (prec + (e + Z.pos s) - prec - (e + Z.pos s)) with 0 by lia.
    cbn [shr shr_record_of_loc shr_m].
    destruct (Z.leb_spec (e + Z.pos s) (emax - prec)); [|lia].
    exists m2, (e + Zpos s), 0. split; [reflexivity|]. split; [auto|]. split; [lia|].
    rewrite Z.pow_0_r, Z.mul_1_r. lia.
  - assert (Em : Zpos m2 = 2 ^ prec) by lia.
    assert (Hd2 : Zdigits2 (Zpos m2) = prec + 1).
    { apply Zdigits2_unique. replace (prec + 1 - 1) with prec by lia. rewrite Em.
      split; [lia|]. apply Z.pow_lt_mono_r; unfold prec; lia. }
    rewrite Hd2, fexp_normal by lia.
    replace (prec + 1 + (e + Z.pos s) - prec - (e + Z.pos s)) with 1 by lia.
    cbn [shr shr_record_of_loc SpecFloat.iter_pos].
    assert (Hm2 : m2 = (2 ^ 53)%positive) by (apply Pos2Z.inj; rewrite Em; reflexivity).
    subst m2. cbn [shr_1 shr_m Pos.pow Pos.iter Pos.mul].
    destruct (Z.leb_spec (e + Z.pos s + 1) (emax - prec)); [|lia].
    eexists _, (e + Zpos s + 1), 1. split; [reflexivity|]. split; [auto|]. split; [lia|].
    right. destruct Hq2 as [Hq2|Hq2]; [unfold prec in *; simpl in *; lia|].
    rewrite <- Hq2. reflexivity.
Qed.

Lemma Pos_iter_xO p k : Zpos (Pos.iter xO p k) = Zpos p * 2 ^ Zpos k.
Proof.
  induction k as [|k IH] using Pos.peano_ind.
  - simpl. lia.
  - rewrite Pos.iter_succ, Pos2Z.inj_xO, IH, Pos2Z.inj_succ, Z.pow_succ_r by lia. lia.
Qed.

(** A length below [2 ^ 53] converts exactly. *)
Lemma float_of_len_spec (n : nat) :
  0 < Z.of_nat n < 2 ^ prec ->
  exists my, Prim2SF (float_of_len n)
             = S754_finite false my (Z.log2 (Z.of_nat n) + 1 - prec)
             /\ Zpos my = Z.of_nat n * 2 ^ (prec - 1 - Z.log2 (Z.of_nat n))
             /\ Zdigits2 (Zpos my) = prec.
Proof.
  intros Hn. unfold float_of_len. rewrite of_uint63_spec.
  replace (Uint63Axioms.to_Z (of_Z (Z.of_nat n))) with (Z.of_nat n).
  2:{ change (Z.of_nat n = to_Z (of_Z (Z.of_nat n))). rewrite of_Z_spec.
      symmetry. apply Z.mod_small. unfold prec in Hn. change wB with (2 ^ 63).
      assert (2 ^ 53 < 2 ^ 63) by (apply Z.pow_lt_mono_r; lia). lia. }
  destruct (Z.of_nat n) as [|p|p]; try lia.
  unfold binary_normalize, binary_round.
  pose proof (Zdigits2_log2 p) as Hd. simpl Zdigits2 in Hd.
  assert (Hl : 0 <= Z.log2 (Zpos p) < prec).
  { split; [apply Z.log2_nonneg|]. apply Z.log2_lt_pow2; lia. }
  rewrite Z.add_0_r, Hd, fexp_normal by (unfold emin, emax, prec in *; lia).
  unfold shl_align. rewrite Z.sub_0_r.
  destruct (Z.log2 (Z.pos p) + 1 - prec) as [|k|k] eqn:Ek; try lia.
  - exists p. split.
    + apply binary_round_aux_exact; [simpl; lia|unfold emin, emax, prec; lia].
    + split; [|simpl; lia]. replace (prec - 1 - Z.log2 (Z.pos p)) with 0 by lia. lia.
  - exists (Pos.iter xO p k).
    assert (Hv : Zpos (Pos.iter xO p k) = Zpos p * 2 ^ (prec - 1 - Z.log2 (Zpos p))).
    { rewrite Pos_iter_xO. f_equal. f_equal. lia. }
    assert (Hdg : Zdigits2 (Z.pos (Pos.iter xO p k)) = prec).
    { rewrite Zdigits2_log2, Hv, Z.log2_mul_pow2 by lia. lia. }
    split; [|split; assumption].
    apply binary_round_aux_exact; [assumption|unfold emin, emax, prec in *; lia].
Qed.


(** The integer core: [q] is the product of the two mantissas cut to its
    leading digits, [Q] its rounding, and [Q / B] the truncated product. *)
Lemma split_index_arith n E A B q Q :
  0 <= n -> 8 <= E -> 0 < A <= 2 ^ 53 -> 0 < B -> A * B = 2 ^ 53 * E ->
  n * E < 2 ^ 53 -> q = (mantissa_0_8 * (n * E)) / A -> Q = q \/ Q = q + 1 ->
  Q / B = 4 * n / 5.
Proof.
  intros Hn HE HA HB HAB HX Hq HQ.
  set (T := 2 ^ 53) in *. assert (HT : T = 9007199254740992) by reflexivity.
  set (k := 4 * n / 5).
  assert (Hk : 4 * n = 5 * k + (4 * n) mod 5) by (apply Z.div_mod; lia).
  assert (Hr : 0 <= (4 * n) mod 5 < 5) by (apply Z.mod_pos_bound; lia).
  set (r := (4 * n) mod 5) in *.
  set (X := n * E) in *. set (M := mantissa_0_8 * X) in *.
  assert (HM : 5 * M = 4 * (T * X) + 2 * X) by (unfold M, mantissa_0_8; lia).
  assert (HTX : T * X = (A * B) * n) by (rewrite HAB; unfold X; ring).
  assert (HqA : q * A <= M < q * A + A).
  { subst q. pose proof (Z.div_mod M A ltac:(lia)).
    pose proof (Z.mod_pos_bound M A ltac:(lia)). lia. }
  assert (HX0 : 0 <= X) by (unfold X; nia).
  assert (Hk0 : 0 <= k) by (apply Z.div_pos; lia).
  assert (HM' : 5 * M = 5 * (A * B * k) + A * B * r + 2 * X).
  { rewrite HM, HTX. replace (4 * (A * B * n)) with (A * B * (4 * n)) by ring.
    rewrite Hk. ring. }
  assert (HABr : 0 <= A * B * r <= 4 * (A * B)) by nia.
  assert (Hlow : B * k <= q).
  { destruct (Z_le_gt_dec (B * k) q) as [|Hc]; [assumption|exfalso].
    assert ((q + 1) * A <= B * k * A) by (apply Z.mul_le_mono_nonneg_r; lia).
    replace (B * k * A) with (A * B * k) in * by ring. lia. }
  assert (Hup : q + 1 < B * (k + 1)).
  { destruct (Z_lt_le_dec (q + 1) (B * (k + 1))) as [|Hc]; [assumption|exfalso].
    assert ((B * (k + 1) - 1) * A <= q * A) by (apply Z.mul_le_mono_nonneg_r; lia).
    replace ((B * (k + 1) - 1) * A) with (A * B * k + A * B - A) in * by ring.
    rewrite HAB in *. lia. }
  symmetry. apply Z.div_unique with (Q - B * k); lia.
Qed.

(** [int(0.8 * n)] is the integer part of [4 n / 5] for every length
    below [2 ^ 50]. *)
Lemma split_index_floor (n : nat) :
  Z.of_nat n < 2 ^ 50 -> split_index n = Ok (4 * Z.of_nat n / 5).
Proof.
  intros Hn. destruct n as [|n']; [vm_compute; reflexivity|].
  set (n := S n') in *. set (z := Z.of_nat n) in *.
  assert (Hz : 0 < z) by (unfold z, n; lia).
  assert (H50 : 2 ^ 50 < 2 ^ prec) by (apply Z.pow_lt_mono_r; unfold prec; lia).
  destruct (float_of_len_spec n ltac:(fold z; lia)) as (my & Hf & Hmy & Hdy).
  fold z in Hf, Hmy.
  assert (Hl : 0 <= Z.log2 z < 50).
  { split; [apply Z.log2_nonneg|]. apply Z.log2_lt_pow2; lia. }
  unfold split_index, py_int. rewrite FloatAxioms.mul_spec, Hf.
  change (Prim2SF 0x1.999999999999ap-1)
    with (S754_finite false 7205759403792794 (-53)).
  unfold SF64mul, SFmul. cbn [xorb].
  set (pm := (7205759403792794 * my)%positive).
  pose proof (Zdigits2_bounds my) as Hby. rewrite Hdy in Hby.
  assert (HM : Zpos pm = mantissa_0_8 * Zpos my) by reflexivity.
  assert (HMb : 2 ^ 104 <= Zpos pm < 2 ^ 106).
  { rewrite HM. unfold mantissa_0_8, prec in *. simpl in Hby |- *. lia. }
  assert (HD : 105 <= Zdigits2 (Zpos pm) <= 106).
  { pose proof (Zdigits2_bounds pm) as Hb. split.
    - destruct (Z_lt_le_dec (Zdigits2 (Zpos pm)) 105); [|assumption].
      assert (2 ^ Zdigits2 (Zpos pm) <= 2 ^ 104) by (apply Z.pow_le_mono_r; lia). lia.
    - destruct (Z_lt_le_dec 106 (Zdigits2 (Zpos pm))); [|assumption].
      assert (2 ^ 106 <= 2 ^ (Zdigits2 (Zpos pm) - 1)) by (apply Z.pow_le_mono_r; lia).
      lia. }
  destruct (binary_round_aux_inexact pm (-53 + (Z.log2 z + 1 - prec)))
    as (m' & e' & t & Hr & Ht & He' & HQ);
    [unfold prec; lia|unfold emin, emax, prec; lia|unfold emax, prec; lia|].
  rewrite Hr. set (D := Zdigits2 (Zpos pm)) in *.
  assert (He'neg : e' < 0) by (unfold prec in *; lia).
  destruct (Z.leb_spec 0 e'); [lia|]. f_equal.
  set (s1 := D - prec) in *.
  set (sg := - e' + t).
  assert (Hsg : 0 < sg) by (unfold sg, s1, prec in *; lia).
  replace (Zpos m' / 2 ^ (- e')) with ((Zpos m' * 2 ^ t) / 2 ^ sg).
  2:{ unfold sg. rewrite Z.pow_add_r by lia.
      rewrite Z.div_mul_cancel_r; [reflexivity| |]; apply Z.pow_nonzero; lia. }
  apply split_index_arith
    with (E := 2 ^ (prec - 1 - Z.log2 z)) (A := 2 ^ s1) (q := Zpos pm / 2 ^ s1).
  - lia.
  - change 8 with (2 ^ 3). apply Z.pow_le_mono_r; unfold prec; lia.
  - split; [apply Z.pow_pos_nonneg; unfold s1, prec; lia|].
    apply Z.pow_le_mono_r; unfold s1, prec; lia.
  - apply Z.pow_pos_nonneg; lia.
  - rewrite <- !Z.pow_add_r by (unfold s1, sg, prec in *; lia). f_equal.
    unfold sg, s1, prec in *. lia.
  - rewrite <- Hmy. unfold prec in Hby. lia.
  - rewrite HM, Hmy. reflexivity.
  - assumption.
Qed.

End Binary64.

(** The split index of some small lengths, computed in binary64. *)
Example split_index_samples :
  map split_index [0; 1; 4; 5; 9; 10; 99; 100; 4999]
  = map Ok [0; 0; 3; 4; 7; 8; 79; 80; 3999]%Z.
Proof. vm_compute. reflexivity. Qed.

(** ** The retrieval corpus *)


Lemma append_snippets_app acc example :
  append_snippets acc example = acc ++ snippets example.
Proof.
  unfold append_snippets. revert acc.
  induction (snippets example) as [|s l IH]; intros acc; simpl.
  - by rewrite app_nil_r.
  - rewrite IH. by rewrite <- app_assoc.
Qed.

Lemma fold_append_snippets dataset acc :
  fold_left append_snippets dataset acc = acc ++ concat (map snippets dataset).
Proof.
  revert acc. induction dataset as [|example rest IH]; intros acc; simpl.
  - by rewrite app_nil_r.
  - rewrite IH, append_snippets_app. by rewrite <- app_assoc.
Qed.

Lemma occurrences_app s l1 l2 :
  occurrences s (l1 ++ l2) = occurrences s l1 + occurrences s l2.
Proof. unfold occurrences. by rewrite filter_app, length_app. Qed.

(** C10: the corpus is the concatenation of the snippet lists in Dataset
    order, one entry per snippet occurrence; its length is the sum of the
    lists' lengths, and a snippet occurs in it as often as it occurs in all
    the Examples together, so nothing is deduplicated. *)
Theorem all_snippets_is_concatenation (dataset : list Example) :
  all_snippets dataset = concat (map snippets dataset)
  /\ length (all_snippets dataset)
     = sum_list (map (fun example => length (snippets example)) dataset)
  /\ forall s, occurrences s (all_snippets dataset)
               = sum_list (map (fun example => occurrences s (snippets example)) dataset).
Proof.
  assert (Heq : all_snippets dataset = concat (map snippets dataset)).
  { unfold all_snippets. by rewrite fold_append_snippets. }
  rewrite Heq. split; [done|]. split.
  - induction dataset as [|example rest IH]; simpl; [done|].
    rewrite length_app. f_equal. apply IH.
    unfold all_snippets. by rewrite fold_append_snippets.
  - intros s. induction dataset as [|example rest IH]; simpl; [done|].
    rewrite occurrences_app. f_equal. apply IH.
    unfold all_snippets. by rewrite fold_append_snippets.
Qed.

(** A snippet shared by two Examples, and repeated within one, is kept
    every time. *)
Example all_snippets_keeps_duplicates :
  all_snippets [ {| user_input := Some "auth"; snippets := ["a"; "b"; "a"] |};
                 {| user_input := Some "math"; snippets := [] |};
                 {| user_input := Some "io"; snippets := ["b"; "c"] |} ]%string
  = ["a"; "b"; "a"; "b"; "c"]%string.
Proof. reflexivity. Qed.

(** ** The shuffle and the split *)

Section Shuffle.
Context {A : Type}.
Implicit Types x : list A.


Lemma transpose_inj i j : Inj (=) (=) (transpose i j).
Proof. intros a c. unfold transpose. repeat case_decide; congruence. Qed.

Lemma swap_in_range x i j :
  i < length x -> j < length x -> exists x', swap x i j = Ok x'.
Proof.
  intros Hi Hj. unfold swap.
  destruct (lookup_lt_is_Some_2 x j Hj) as [xj ->].
  destruct (lookup_lt_is_Some_2 x i Hi) as [xi ->]. eauto.
Qed.

Lemma swap_lookup x x' i j k :
  swap x i j = Ok x' -> x' !! k = x !! transpose i j k.
Proof.
  unfold swap. destruct (x !! j) as [xj|] eqn:Hj; [|done].
  destruct (x !! i) as [xi|] eqn:Hi; [|done]. intros [= <-].
  pose proof (lookup_lt_Some _ _ _ Hi). pose proof (lookup_lt_Some _ _ _ Hj).
  unfold transpose. destruct (decide (k = j)) as [->|Hkj].
  - rewrite list_lookup_insert_eq by (by rewrite length_insert).
    case_decide; [by subst|done].
  - rewrite list_lookup_insert_ne by done.
    destruct (decide (k = i)) as [->|Hki].
    + by rewrite list_lookup_insert_eq.
    + by rewrite list_lookup_insert_ne.
Qed.

Lemma swap_length x x' i j : swap x i j = Ok x' -> length x' = length x.
Proof.
  unfold swap. destruct (x !! j); [|done]. destruct (x !! i); [|done].
  intros [= <-]. by rewrite !length_insert.
Qed.

Lemma swap_Permutation x x' i j : swap x i j = Ok x' -> x' ≡ₚ x.
Proof.
  intros Hs. apply Permutation_inj. split; [by eapply swap_length|].
  exists (transpose i j). split; [apply transpose_inj|].
  intros k. by eapply swap_lookup.
Qed.

Context `{NumpyRandom}.

Lemma shuffle_from_Permutation i : forall g x,
  in_range -> i < length x \/ i = 0 ->
  exists g' x', shuffle_from i g x = Ok (g', x') /\ x' ≡ₚ x.
Proof.
  induction i as [|i IH]; intros g x Hr Hi; simpl.
  - by exists g, x.
  - destruct Hi as [Hi|]; [|done].
    pose proof (Hr g (S i)) as Hj.
    destruct (random_interval g (S i)) as [j g1]; simpl in Hj.
    destruct (swap_in_range x (S i) j) as [x1 Hx1]; [lia..|].
    rewrite Hx1; simpl.
    destruct (IH g1 x1 Hr) as (g' & x' & Hs & Hp).
    { left. rewrite (swap_length _ _ _ _ Hx1). lia. }
    exists g', x'. split; [done|]. rewrite Hp. by eapply swap_Permutation.
Qed.

Lemma shuffle_Permutation g x :
  in_range -> exists g' x', shuffle g x = Ok (g', x') /\ x' ≡ₚ x.
Proof.
  intros Hr. apply shuffle_from_Permutation; [done|].
  destruct x; simpl; lia.
Qed.

Lemma shuffle_nil g : shuffle g (@nil A) = Ok (g, []).
Proof. reflexivity. Qed.

End Shuffle.

Lemma lcg_in_range : @in_range lcg.
Proof.
  intros g m. simpl.
  pose proof (Z.mod_pos_bound (lcg_next g) (Z.of_nat (S m)) ltac:(lia)). lia.
Qed.

Lemma py_slice_nonneg {A} (l : list A) (k : Z) :
  (0 <= k)%Z ->
  py_slice_to l k = take (Z.to_nat k) l /\ py_slice_from l k = drop (Z.to_nat k) l.
Proof.
  intros Hk. unfold py_slice_to, py_slice_from.
  by destruct (Z.ltb_spec k 0); [lia|].
Qed.

(** C3: after the shuffle, which permutes the list, the training set is a
    prefix of the shuffled list and the validation set the remaining suffix;
    their lengths add up to the length of [example_pairs], and the training
    set holds the integer part of 0.8 times that length.  The generator is
    assumed to honour its bound, and the list to be shorter than [2^50]. *)
Theorem split_cell_contiguous_cut `{NumpyRandom} (g : rng) (pairs : list pair) :
  in_range -> (Z.of_nat (length pairs) < 2 ^ 50)%Z ->
  exists sv,
    split_cell g pairs = Ok sv
    /\ sv_example_pairs sv ≡ₚ pairs
    /\ sv_train_pairs sv = take (length (sv_train_pairs sv)) (sv_example_pairs sv)
    /\ sv_val_pairs sv = drop (length (sv_train_pairs sv)) (sv_example_pairs sv)
    /\ length (sv_train_pairs sv) + length (sv_val_pairs sv) = length pairs
    /\ 5 * length (sv_train_pairs sv) <= 4 * length pairs
       < 5 * length (sv_train_pairs sv) + 5.
Proof.
  intros Hr Hn.
  destruct (shuffle_Permutation g pairs Hr) as (g' & x' & Hs & Hp).
  pose proof (Permutation_length Hp) as Hlen.
  unfold split_cell. rewrite Hs. simpl.
  rewrite split_index_floor by (by rewrite Hlen). simpl.
  eexists. split; [reflexivity|]. simpl.
  set (k := (4 * Z.of_nat (length x') / 5)%Z).
  assert (Hk : (5 * k <= 4 * Z.of_nat (length x') < 5 * k + 5)%Z).
  { unfold k. pose proof (Z.div_mod (4 * Z.of_nat (length x')) 5 ltac:(lia)).
    pose proof (Z.mod_pos_bound (4 * Z.of_nat (length x')) 5 ltac:(lia)). lia. }
  destruct (py_slice_nonneg x' k ltac:(lia)) as [-> ->].
  assert (Hle : Z.to_nat k <= length x') by lia.
  rewrite length_take_le, length_drop by done.
  repeat split; try done; lia.
Qed.

Lemma split_cell_contiguous_cut_witness :
  @in_range lcg
  /\ (Z.of_nat (length [pair_a; pair_b; pair_c; pair_d; pair_e]) < 2 ^ 50)%Z
  /\ exists sv,
      @split_cell lcg 7%Z [pair_a; pair_b; pair_c; pair_d; pair_e] = Ok sv
      /\ sv_example_pairs sv ≡ₚ [pair_a; pair_b; pair_c; pair_d; pair_e]
      /\ sv_train_pairs sv = take (length (sv_train_pairs sv)) (sv_example_pairs sv)
      /\ sv_val_pairs sv = drop (length (sv_train_pairs sv)) (sv_example_pairs sv)
      /\ length (sv_train_pairs sv) + length (sv_val_pairs sv) = 5
      /\ 5 * length (sv_train_pairs sv) <= 4 * 5 < 5 * length (sv_train_pairs sv) + 5.
Proof.
  split; [exact lcg_in_range|]. split; [reflexivity|].
  apply (@split_cell_contiguous_cut lcg 7%Z [pair_a; pair_b; pair_c; pair_d; pair_e]).
  - exact lcg_in_range.
  - reflexivity.
Defined.

(** The split of five pairs under the sample generator: four for training,
    one for validation. *)
Example split_cell_five :
  (fun sv => (sv_train_pairs sv, sv_val_pairs sv))
    <$> @split_cell lcg 7%Z [pair_a; pair_b; pair_c; pair_d; pair_e]
  = Ok ([pair_a; pair_c; pair_d; pair_e], [pair_b]).
Proof. vm_compute. reflexivity. Qed.

(** ** Non-finite floats *)

Lemma Prim2SF_nonfinite x :
  is_finite x = false ->
  Prim2SF x = S754_nan \/ exists s, Prim2SF x = S754_infinity s.
Proof.
  unfold is_finite. intros Hx. apply negb_false_iff, orb_true_iff in Hx.
  unfold Prim2SF. destruct (is_nan x) eqn:Hn; [by left|].
  destruct Hx as [|Hi]; [done|]. right.
  destruct (PrimFloat.is_zero x) eqn:Hz; [|rewrite Hi; eauto].
  exfalso. revert Hi. unfold is_infinity.
  rewrite FloatAxioms.eqb_spec, FloatAxioms.abs_spec. unfold Prim2SF at 1. by rewrite Hn, Hz.
Qed.

Lemma is_finite_nonfinite z :
  Prim2SF z = S754_nan \/ (exists s, Prim2SF z = S754_infinity s) ->
  is_finite z = false.
Proof.
  intros Hz. unfold is_finite. apply negb_false_iff, orb_true_iff.
  destruct Hz as [Hz|[s Hz]].
  - left. unfold is_nan. by rewrite FloatAxioms.eqb_spec, Hz.
  - right. unfold is_infinity. by rewrite FloatAxioms.eqb_spec, FloatAxioms.abs_spec, Hz.
Qed.

(** A non-finite sum divided by a length is non-finite. *)
Lemma nonfinite_mean x (n : nat) :
  is_finite x = false -> (0 < Z.of_nat n < 2 ^ prec)%Z ->
  is_finite (x / float_of_len n) = false.
Proof.
  intros Hx Hn. apply is_finite_nonfinite.
  destruct (float_of_len_spec n Hn) as (my & Hy & _).
  rewrite FloatAxioms.div_spec, Hy.
  destruct (Prim2SF_nonfinite x Hx) as [->|[s ->]]; [by left|right].
  by eexists.
Qed.

(** ** The training cell *)


(** Unfolds the plumbing of the [cell] monad and of the session updates. *)
Ltac run_cell :=
  cbv beta iota delta
    [mbind mret cell_bind cell_ret lift get_kernel current_view record_call
     set_P_grad set_parameters print_validation epochs_append losses_append];
  simpl.

Section TrainingProperties.
Context `{Torch} (b : blanks).


Lemma add_calls_nil k : add_calls [] k = k.
Proof. destruct k; unfold add_calls; simpl. by rewrite app_nil_r. Qed.

Lemma add_calls_app cs1 cs2 k :
  add_calls cs2 (add_calls cs1 k) = add_calls (cs1 ++ cs2) k.
Proof. unfold add_calls; simpl. by rewrite app_assoc. Qed.


Lemma loss_of_pair_run p k :
  loss_of_pair b p k = (add_calls (pair_calls b (view_of k) p) k, pair_loss b (view_of k) p).
Proof.
  unfold loss_of_pair, pair_loss, pair_calls, mbind, cell_bind, result_bind,
    current_view, lift. fold (view_of k).
  destruct (b_prediction b (view_of k) p) as [prediction|e]; simpl;
    [|by rewrite add_calls_nil].
  destruct (b_y b (view_of k) p) as [y|e]; simpl; [|by rewrite add_calls_nil].
  reflexivity.
Qed.

Lemma train_loop_run pairs : forall acc k,
  train_loop b pairs acc k
  = (add_calls (loop_calls b (view_of k) pairs acc) k, sum_losses b (view_of k) pairs acc).
Proof.
  induction pairs as [|p rest IH]; intros acc k; simpl.
  - by rewrite add_calls_nil.
  - unfold mbind at 1, cell_bind at 1. rewrite loss_of_pair_run.
    destruct (pair_loss b (view_of k) p) as [loss|e]; simpl;
      [|by rewrite app_nil_r].
    unfold mbind at 1, cell_bind at 1, lift.
    destruct (py_add acc loss) as [acc'|e]; simpl; [|by rewrite app_nil_r].
    rewrite IH. by rewrite add_calls_app.
Qed.

Lemma val_loop_run pairs : forall acc k,
  val_loop b pairs acc k
  = (add_calls (loop_calls b (view_of k) pairs acc) k, sum_losses b (view_of k) pairs acc).
Proof.
  induction pairs as [|p rest IH]; intros acc k; simpl.
  - by rewrite add_calls_nil.
  - unfold mbind at 1, cell_bind at 1. rewrite loss_of_pair_run.
    destruct (pair_loss b (view_of k) p) as [loss|e]; simpl;
      [|by rewrite app_nil_r].
    unfold mbind at 1, cell_bind at 1, lift.
    destruct (py_add acc loss) as [acc'|e]; simpl; [|by rewrite app_nil_r].
    rewrite IH. by rewrite add_calls_app.
Qed.

Lemma loop_calls_prefix v pairs : forall acc,
  exists n, loop_calls b v pairs acc = map (LossFunc (v_grad_enabled v)) (take n pairs).
Proof.
  induction pairs as [|p rest IH]; intros acc; simpl.
  - by exists 0.
  - unfold pair_calls, pair_loss.
    destruct (b_prediction b v p) as [prediction|e]; simpl; [|by exists 0].
    destruct (b_y b v p) as [y|e]; simpl; [|by exists 0].
    destruct (b_loss_func b v prediction y) as [loss|e]; simpl; [|by exists 1].
    destruct (py_add acc loss) as [acc'|e]; [|by exists 1].
    destruct (IH acc') as [n ->]. by exists (S n).
Qed.

Lemma loop_calls_complete v pairs : forall acc,
  returns (sum_losses b v pairs acc) ->
  loop_calls b v pairs acc = map (LossFunc (v_grad_enabled v)) pairs.
Proof.
  induction pairs as [|p rest IH]; intros acc [r Hr]; simpl in *; [done|].
  unfold pair_calls. unfold pair_loss in *.
  destruct (b_prediction b v p) as [prediction|e]; simpl in *; [|done].
  destruct (b_y b v p) as [y|e]; simpl in *; [|done].
  destruct (b_loss_func b v prediction y) as [loss|e]; simpl in *; [|done].
  destruct (py_add acc loss) as [acc'|e]; simpl in *; [|done].
  f_equal. apply IH. by exists r.
Qed.


(** *** The validation pass *)

Lemma validation_pass_run val_pairs k :
  validation_pass b val_pairs k
  = (add_calls (loop_calls b {| v_P := P k; v_grad_enabled := false |} val_pairs (VFloat 0)) k,
     val_loss_at b val_pairs (P k)).
Proof.
  unfold validation_pass, no_grad. rewrite val_loop_run.
  unfold val_loss_at. destruct k; reflexivity.
Qed.

(** *** The training pass *)

Lemma training_pass_empty k :
  training_pass b [] k
  = ({| P := P k; P_grad := zero_grad (P_grad k); optimizer := optimizer k;
        grad_enabled := grad_enabled k; epochs := epochs k; types := types k;
        losses := losses k; stdout := stdout k; calls := calls k ++ [ZeroGrad] |},
     Raise AttributeError).
Proof. reflexivity. Qed.


Lemma training_pass_run train_pairs k t g x :
  sum_losses b (view_of k) train_pairs (VFloat 0) = Ok (VTensor t) ->
  grad_fn t = Some g -> item t = Some x ->
  training_pass b train_pairs k = (trained train_pairs g k, Ok (VTensor t)).
Proof.
  intros Hs Hg Hx. unfold training_pass, optimizer_zero_grad.
  unfold mbind at 1, cell_bind at 1. simpl.
  unfold mbind at 1, cell_bind at 1.
  rewrite train_loop_run. simpl. change (view_of _) with (view_of k).
  rewrite Hs, (loop_calls_complete _ _ _ ltac:(by eexists)).
  unfold mbind at 1, cell_bind at 1. simpl. rewrite Hg, Hx.
  unfold optimizer_step. run_cell. unfold trained.
  destruct (adam_step _ _ _ _) as [P' o'] eqn:Ha. simpl.
  do 2 f_equal. by rewrite <- !app_assoc.
Qed.


(** *** A whole run *)

Variables (train_pairs val_pairs : list pair) (P0 : tensor).

Lemma at_epoch_initial : at_epoch b train_pairs val_pairs P0 0 (initial_kernel P0).
Proof. by split. Qed.

Lemma sum_losses_tensor_nonempty v pairs t :
  sum_losses b v pairs (VFloat 0) = Ok (VTensor t) -> length pairs <> 0.
Proof. by destruct pairs. Qed.

Lemma mean_item_tensor t x n :
  item t = Some x -> n <> 0 -> mean_item (VTensor t) n = Ok (x / float_of_len n)%float.
Proof. intros Hx Hn. unfold mean_item; simpl. rewrite Hx; simpl. by destruct n. Qed.

Lemma P_at_S e g t :
  train_loss_at b train_pairs (P_at b train_pairs P0 e) = Ok (VTensor t) ->
  grad_fn t = Some g ->
  params_at b train_pairs P0 (S e)
  = (let s := params_at b train_pairs P0 e in
     let G := Some (accumulate_grad (zero_grad s.1.2) g) in
     let r := adam_step lr s.2 s.1.1 G in (r.1, G, r.2)).
Proof.
  intros Ht Hg. unfold P_at in Ht. unfold params_at in *. simpl Nat.iter.
  destruct (Nat.iter e _ _) as [[Pe Ge] oe]; simpl in *.
  unfold epoch_grad. rewrite Ht, Hg. by destruct (adam_step _ _ _ _).
Qed.

Lemma epoch_body_run e k :
  at_epoch b train_pairs val_pairs P0 e k -> epoch_ready b train_pairs val_pairs P0 e ->
  exists k', epoch_body b train_pairs val_pairs (Z.of_nat e) k = (k', Ok tt)
             /\ at_epoch b train_pairs val_pairs P0 (S e) k'.
Proof.
  intros [Hp Hg He Hty Hl Ho Hc] [(t & g & x & Ht & Hgt & Hx) (t' & x' & Hv & Hx')].
  assert (HPk : P k = P_at b train_pairs P0 e) by (unfold P_at; by rewrite <- Hp).
  pose proof (P_at_S e g t Ht Hgt) as HS. rewrite <- Hp in HS.
  cbv zeta in HS. cbn [fst snd] in HS.
  assert (HP' : P (trained train_pairs g k) = P_at b train_pairs P0 (S e))
    by (unfold P_at; by rewrite HS).
  unfold epoch_body. unfold mbind at 1, cell_bind at 1.
  rewrite (training_pass_run train_pairs k t g x);
    [|by unfold view_of; rewrite Hg, HPk|done|done].
  unfold mbind at 1, cell_bind at 1. rewrite validation_pass_run, HP', Hv.
  rewrite (loop_calls_complete _ _ _ ltac:(by eexists; apply Hv)).
  unfold record_epoch.
  rewrite (mean_item_tensor t' x') by (done || by eapply sum_losses_tensor_nonempty).
  rewrite (mean_item_tensor t x) by (done || by eapply sum_losses_tensor_nonempty).
  run_cell. eexists; split; [reflexivity|].
  split; cbn [P P_grad optimizer grad_enabled epochs types losses stdout calls
               trained add_calls].
  - by rewrite HS.
  - done.
  - rewrite He. unfold range. by rewrite seq_S, map_app.
  - done.
  - rewrite fmap_app, Hl, seq_S, fmap_app. simpl. f_equal.
    unfold train_mean_at. rewrite Ht. simpl.
    by rewrite (mean_item_tensor t x) by (done || by eapply sum_losses_tensor_nonempty).
  - rewrite fmap_app, Ho, seq_S, fmap_app. simpl. f_equal.
    unfold val_mean_at. rewrite Hv. simpl.
    by rewrite (mean_item_tensor t' x') by (done || by eapply sum_losses_tensor_nonempty).
  - rewrite Hc, Hg, replicate_S_end, concat_app. simpl.
    rewrite app_nil_r. unfold epoch_calls.
    repeat first [rewrite <- app_assoc | progress simpl]. reflexivity.
Qed.

Lemma for_each_epochs n : forall a k,
  at_epoch b train_pairs val_pairs P0 a k -> (forall e, a <= e < a + n -> epoch_ready b train_pairs val_pairs P0 e) ->
  exists k', for_each (map Z.of_nat (seq a n)) (epoch_body b train_pairs val_pairs) k
             = (k', Ok tt)
             /\ at_epoch b train_pairs val_pairs P0 (a + n) k'.
Proof.
  induction n as [|n IH]; intros a k Hk Hr; simpl.
  - exists k. by rewrite Nat.add_0_r.
  - destruct (epoch_body_run a k Hk) as (k1 & Hb & Hk1); [apply Hr; lia|].
    unfold mbind at 1, cell_bind at 1. rewrite Hb.
    destruct (IH (S a) k1 Hk1) as (k' & Hl & Hk'); [intros; apply Hr; lia|].
    exists k'. split; [done|]. by replace (a + S n) with (S a + n) by lia.
Qed.

(** The run of the training cell when every epoch is ready. *)
Lemma training_cell_run :
  (forall e, e < num_epochs -> epoch_ready b train_pairs val_pairs P0 e) ->
  exists k', training_cell b train_pairs val_pairs P0 = (k', Ok tt)
             /\ at_epoch b train_pairs val_pairs P0 num_epochs k'.
Proof.
  intros Hr. unfold training_cell, training_loop, range.
  apply (for_each_epochs num_epochs 0); [apply at_epoch_initial|].
  intros e He. apply Hr. lia.
Qed.

End TrainingProperties.

(** *** Completion implies readiness *)

Section TrainingCompletion.
Context `{Torch} (b : blanks).

Lemma training_pass_unfold train_pairs k :
  training_pass b train_pairs k
  = match sum_losses b (view_of k) train_pairs (VFloat 0) with
    | Ok (VTensor t) =>
        match grad_fn t, item t with
        | Some g, Some _ => (trained train_pairs g k, Ok (VTensor t))
        | _, _ =>
            (add_calls ([ZeroGrad] ++ map (LossFunc (grad_enabled k)) train_pairs
                        ++ [Backward])
               {| P := P k; P_grad := zero_grad (P_grad k); optimizer := optimizer k;
                  grad_enabled := grad_enabled k; epochs := epochs k;
                  types := types k; losses := losses k; stdout := stdout k;
                  calls := calls k |},
             Raise RuntimeError)
        end
    | Ok _ =>
        (add_calls ([ZeroGrad] ++ map (LossFunc (grad_enabled k)) train_pairs)
           {| P := P k; P_grad := zero_grad (P_grad k); optimizer := optimizer k;
              grad_enabled := grad_enabled k; epochs := epochs k;
              types := types k; losses := losses k; stdout := stdout k;
              calls := calls k |},
         Raise AttributeError)
    | Raise e =>
        (add_calls ([ZeroGrad] ++ loop_calls b (view_of k) train_pairs (VFloat 0))
           {| P := P k; P_grad := zero_grad (P_grad k); optimizer := optimizer k;
              grad_enabled := grad_enabled k; epochs := epochs k;
              types := types k; losses := losses k; stdout := stdout k;
              calls := calls k |},
         Raise e)
    end.
Proof.
  destruct (sum_losses b (view_of k) train_pairs (VFloat 0)) as [l|e] eqn:Hs.
  - assert (Hc : loop_calls b (view_of k) train_pairs (VFloat 0)
                 = map (LossFunc (grad_enabled k)) train_pairs)
      by (apply loop_calls_complete; rewrite Hs; by eexists).
    destruct l as [| | | |t];
      try (unfold training_pass, optimizer_zero_grad;
           unfold mbind at 1, cell_bind at 1; simpl;
           unfold mbind at 1, cell_bind at 1; rewrite train_loop_run; simpl;
           change (view_of _) with (view_of k); rewrite Hs, Hc; simpl;
           unfold add_calls; simpl; by rewrite <- !app_assoc).
    destruct (grad_fn t) as [g|] eqn:Hg, (item t) as [x|] eqn:Hx;
      [by eapply training_pass_run|..];
      unfold training_pass, optimizer_zero_grad;
      unfold mbind at 1, cell_bind at 1; simpl;
      unfold mbind at 1, cell_bind at 1; rewrite train_loop_run; simpl;
      change (view_of _) with (view_of k); rewrite Hs, Hc;
      unfold mbind at 1, cell_bind at 1; simpl; rewrite Hg, ?Hx; simpl;
      unfold add_calls; simpl; by rewrite <- !app_assoc.
  - unfold training_pass, optimizer_zero_grad.
    unfold mbind at 1, cell_bind at 1. simpl.
    unfold mbind at 1, cell_bind at 1. rewrite train_loop_run. simpl.
    change (view_of _) with (view_of k). rewrite Hs. simpl.
    unfold add_calls; simpl. by rewrite <- !app_assoc.
Qed.

Lemma training_pass_returns train_pairs k k1 train_loss :
  training_pass b train_pairs k = (k1, Ok train_loss) ->
  exists t g,
    train_loss = VTensor t
    /\ sum_losses b (view_of k) train_pairs (VFloat 0) = Ok (VTensor t)
    /\ grad_fn t = Some g
    /\ is_Some (item t)
    /\ k1 = trained train_pairs g k.
Proof.
  rewrite training_pass_unfold.
  destruct (sum_losses b (view_of k) train_pairs (VFloat 0)) as [[| | | |t]|e]; try done.
  destruct (grad_fn t) as [g|] eqn:Hg, (item t) as [x|] eqn:Hx; try done.
  intros [= <- <-]. exists t, g. by rewrite Hx.
Qed.

Lemma mean_item_returns v n x :
  mean_item v n = Ok x -> exists t y, v = VTensor t /\ item t = Some y.
Proof.
  unfold mean_item. destruct v as [| | | |t]; try done. simpl.
  destruct (item t) as [y|] eqn:Hy; [|done]. intros _. by exists t, y.
Qed.

Lemma record_epoch_returns train_pairs val_pairs epoch train_loss val_loss k k' :
  record_epoch train_pairs val_pairs epoch train_loss val_loss k = (k', Ok tt) ->
  returns (mean_item val_loss (length val_pairs))
  /\ returns (mean_item train_loss (length train_pairs)).
Proof.
  unfold record_epoch. run_cell.
  destruct (mean_item val_loss _) as [x|]; [|done]. simpl.
  destruct (mean_item train_loss _) as [y|]; [|done]. intros _.
  split; by eexists.
Qed.

Variables (train_pairs val_pairs : list pair) (P0 : tensor).

Lemma epoch_body_returns e k k' :
  at_epoch b train_pairs val_pairs P0 e k ->
  epoch_body b train_pairs val_pairs (Z.of_nat e) k = (k', Ok tt) ->
  epoch_ready b train_pairs val_pairs P0 e.
Proof.
  intros Ha Hr.
  assert (Hv : view_of k = {| v_P := P_at b train_pairs P0 e; v_grad_enabled := true |}).
  { destruct Ha as [Hp Hg _ _ _ _ _]. unfold view_of, P_at. by rewrite <- Hp, Hg. }
  revert Hr. unfold epoch_body. unfold mbind at 1, cell_bind at 1.
  destruct (training_pass b train_pairs k) as [k1 [train_loss|err]] eqn:Ht; [|done].
  destruct (training_pass_returns _ _ _ _ Ht) as (t & g & -> & Hs & Hg & _ & ->).
  rewrite Hv in Hs.
  unfold mbind at 1, cell_bind at 1. rewrite validation_pass_run.
  assert (HP : P (trained train_pairs g k) = P_at b train_pairs P0 (S e)).
  { unfold P_at. rewrite (P_at_S b train_pairs P0 e g t Hs Hg).
    destruct Ha as [Hp _ _ _ _ _]. by rewrite <- Hp. }
  rewrite HP.
  destruct (val_loss_at b val_pairs (P_at b train_pairs P0 (S e))) as [val_loss|err] eqn:Hvl;
    [|done].
  intros Hr. apply record_epoch_returns in Hr as [[x' Hx'] [x Hx]].
  apply mean_item_returns in Hx' as (t' & y' & -> & Hy').
  apply mean_item_returns in Hx as (t'' & y & [= <-] & Hy).
  split; [by exists t, g, y|by exists t', y'].
Qed.

Lemma for_each_epochs_returns n : forall a k k',
  at_epoch b train_pairs val_pairs P0 a k ->
  for_each (map Z.of_nat (seq a n)) (epoch_body b train_pairs val_pairs) k = (k', Ok tt) ->
  forall e, a <= e < a + n -> epoch_ready b train_pairs val_pairs P0 e.
Proof.
  induction n as [|n IH]; intros a k k' Ha Hr e He; [lia|].
  revert Hr. simpl. unfold mbind at 1, cell_bind at 1.
  destruct (epoch_body b train_pairs val_pairs (Z.of_nat a) k) as [k1 [[]|err]] eqn:Hb;
    [|done].
  pose proof (epoch_body_returns a k k1 Ha Hb) as Hra.
  destruct (epoch_body_run b train_pairs val_pairs P0 a k Ha Hra) as (k1' & Hb' & Ha').
  rewrite Hb in Hb'. injection Hb' as <-.
  intros Hr. destruct (decide (e = a)) as [->|]; [done|].
  apply (IH (S a) k1 k' Ha' Hr). lia.
Qed.

(** Training completes exactly when every epoch is ready. *)
Lemma training_cell_returns_iff :
  (exists k', training_cell b train_pairs val_pairs P0 = (k', Ok tt))
  <-> forall e, e < num_epochs -> epoch_ready b train_pairs val_pairs P0 e.
Proof.
  split.
  - intros [k' Hr] e He.
    apply (for_each_epochs_returns num_epochs 0 (initial_kernel P0) k');
      [apply at_epoch_initial|exact Hr|lia].
  - intros Hr. destruct (training_cell_run b train_pairs val_pairs P0 Hr) as (k' & Hk & _).
    by exists k'.
Qed.

End TrainingCompletion.

(** ** The similarity and loss stubs *)

(** C1, as stated, fails: with the identity matrix neither function returns
    a value, so there is no common value of the two calls. *)
Lemma similarity_with_identity_returns_no_value :
  ~ exists v, similarity e_q e_s = Ok v
              /\ similarity_with_projection e_q e_s identity_2 = Ok v.
Proof. intros (v & Hv & _). discriminate Hv. Qed.

(** C1, amended: both similarity functions are stubs; for all arguments, the
    identity matrix included, each raises [NotImplementedError], so the two
    calls have the same outcome and neither returns a value. *)
Theorem similarity_stubs_raise `{Torch} (x_i x_c proj : pyval) :
  similarity x_i x_c = Raise NotImplementedError
  /\ similarity_with_projection x_i x_c proj = Raise NotImplementedError
  /\ similarity_with_projection x_i x_c proj = similarity x_i x_c
  /\ ~ returns (similarity x_i x_c)
  /\ ~ returns (similarity_with_projection x_i x_c proj).
Proof.
  repeat split; try reflexivity; intros [v Hv]; discriminate Hv.
Qed.

(** C4, as stated, fails: for prediction 0 and target 1 the loss function
    returns no value at all. *)
Lemma loss_func_returns_no_value :
  @loss_func flat_torch (VFloat 0) (VFloat 1) = Raise NotImplementedError
  /\ ~ returns (@loss_func flat_torch (VFloat 0) (VFloat 1)).
Proof. split; [reflexivity|]. intros [v Hv]. discriminate Hv. Qed.

(** C4, amended: [loss_func] is a stub that raises [NotImplementedError] for
    every prediction and target; with it, the loss of every pair of the
    notebook as shipped raises too, whatever the session. *)
Theorem loss_func_is_a_stub `{Torch} (predictions targets : pyval) :
  loss_func predictions targets = Raise NotImplementedError
  /\ ~ returns (loss_func predictions targets)
  /\ forall v p, pair_loss shipped v p = Raise NotImplementedError.
Proof.
  split; [reflexivity|]. split; [|reflexivity]. intros [v Hv]. discriminate Hv.
Qed.

(** ** The pair sampler *)

(** Whatever the generator, the order of a two-element list after the
    shuffle is decided by its first draw. *)
Lemma shuffle_two `{NumpyRandom} {A} (g : rng) (a c : A) :
  (fst (random_interval g 1) = 0 ->
   shuffle g [a; c] = Ok (snd (random_interval g 1), [c; a]))
  /\ (fst (random_interval g 1) = 1 ->
      shuffle g [a; c] = Ok (snd (random_interval g 1), [a; c])).
Proof.
  unfold shuffle; simpl.
  destruct (random_interval g 1) as [j g']; simpl. by split; intros ->.
Qed.

(** The order of the pairs depends on the state of the generator, which
    the cell also changes. *)
Example split_order_depends_on_generator_state :
  sv_example_pairs <$> @split_cell lcg 1%Z [pair_a; pair_b] = Ok [pair_b; pair_a]
  /\ sv_example_pairs <$> @split_cell lcg 2%Z [pair_a; pair_b] = Ok [pair_a; pair_b]
  /\ sv_train_pairs <$> @split_cell lcg 1%Z [pair_a; pair_b]
     <> sv_train_pairs <$> @split_cell lcg 2%Z [pair_a; pair_b]
  /\ sv_random <$> @split_cell lcg 1%Z [pair_a; pair_b] <> Ok 1%Z.
Proof. vm_compute. repeat split; discriminate. Qed.

(** ** Runs of the training cell *)

Lemma filter_Step_LossFunc m (pairs : list pair) :
  filter (fun c => c = Step) (map (LossFunc m) pairs) = [].
Proof. induction pairs as [|p rest IH]; simpl; [done|]. by rewrite filter_cons_False. Qed.

Lemma count_Step_epoch_calls train_pairs val_pairs :
  length (filter (fun c => c = Step) (epoch_calls train_pairs val_pairs)) = 1.
Proof.
  unfold epoch_calls. rewrite !filter_app, !filter_Step_LossFunc. reflexivity.
Qed.

Lemma count_Step_epochs n train_pairs val_pairs :
  length (filter (fun c => c = Step)
            (concat (replicate n (epoch_calls train_pairs val_pairs)))) = n.
Proof.
  induction n as [|n IH]; [done|]. cbn [replicate concat].
  by rewrite filter_app, length_app, count_Step_epoch_calls, IH.
Qed.

Lemma training_loop_first_epoch_raises `{Torch} b train_pairs val_pairs k k' e :
  epoch_body b train_pairs val_pairs 0 k = (k', Raise e) ->
  training_loop b train_pairs val_pairs k = (k', Raise e).
Proof.
  intros Hb. unfold training_loop, range, num_epochs.
  cbn [seq map for_each Z.of_nat].
  unfold mbind at 1, cell_bind at 1. change (Z.of_nat 0) with 0%Z. by rewrite Hb.
Qed.

(** The notebook as shipped, with any non-empty training set: the first
    call of [loss_func] raises, in the first epoch, before [backward] and
    [step]. *)
Lemma shipped_training_raises `{Torch} p rest val_pairs P0 :
  exists k',
    training_cell shipped (p :: rest) val_pairs P0 = (k', Raise NotImplementedError)
    /\ P k' = P0 /\ calls k' = [ZeroGrad; LossFunc true p]
    /\ epochs k' = [] /\ losses k' = [] /\ stdout k' = [].
Proof.
  eexists. split; [apply training_loop_first_epoch_raises; reflexivity|done].
Qed.

(** C2, as stated, fails: the notebook as shipped completes no epoch.  With
    its own pair sets, which are empty, it raises [AttributeError] at
    [train_loss.backward()]; with a training pair it stops at the first call
    of [loss_func].  Either way no gradient update is made. *)
Lemma shipped_training_stops_in_first_epoch :
  let r0 := @training_cell flat_torch shipped [] [] P_one in
  let r := @training_cell flat_torch shipped [pair_a] [pair_b] P_one in
  snd r0 = Raise AttributeError
  /\ calls (fst r0) = [ZeroGrad]
  /\ snd r = Raise NotImplementedError
  /\ calls (fst r) = [ZeroGrad; LossFunc true pair_a]
  /\ epochs (fst r) = []
  /\ P (fst r) = P_one.
Proof. vm_compute. repeat split. Qed.

(** C2, amended: when the blanks are filled so that every epoch is ready
    (its training loss is a tensor with a gradient and a value, its
    validation loss a tensor with a value), the loop runs exactly
    [num_epochs = 25] epochs at [lr = 0.1]; each epoch zeroes the gradient,
    calls [loss_func] for every training pair in order, then calls
    [backward] and [step] exactly once, the step being an Adam step on the
    gradient of the summed training loss, and then evaluates the validation
    pairs. *)
Theorem training_runs_num_epochs `{Torch} (b : blanks)
    (train_pairs val_pairs : list pair) (P0 : tensor) :
  (forall e, e < num_epochs -> epoch_ready b train_pairs val_pairs P0 e) ->
  exists k',
    training_cell b train_pairs val_pairs P0 = (k', Ok tt)
    /\ num_epochs = 25
    /\ lr = 0x1.999999999999ap-4%float
    /\ calls k' = concat (replicate num_epochs (epoch_calls train_pairs val_pairs))
    /\ length (filter (fun c => c = Step) (calls k')) = num_epochs
    /\ (P k', P_grad k', optimizer k')
       = Nat.iter num_epochs (epoch_update b train_pairs) (P0, None, adam_init)
    /\ forall e, e < num_epochs ->
         exists t g,
           train_loss_at b train_pairs (P_at b train_pairs P0 e) = Ok (VTensor t)
           /\ grad_fn t = Some g
           /\ params_at b train_pairs P0 (S e)
              = (let s := params_at b train_pairs P0 e in
                 let G := Some (accumulate_grad (zero_grad s.1.2) g) in
                 let r := adam_step lr s.2 s.1.1 G in (r.1, G, r.2)).
Proof.
  intros Hr.
  destruct (training_cell_run b train_pairs val_pairs P0 Hr) as (k' & Hk & Ha).
  exists k'. split; [done|]. split; [done|]. split; [done|].
  destruct Ha as [Hp _ _ _ _ _ Hc].
  split; [done|]. split; [by rewrite Hc, count_Step_epochs|]. split; [done|].
  intros e He. destruct (Hr e He) as [(t & g & x & Ht & Hg & _) _].
  exists t, g. split; [done|]. split; [done|]. by eapply P_at_S.
Qed.

Lemma constant_loss_ready x P0 e :
  epoch_ready (constant_loss x) [pair_a; pair_b] [pair_c] P0 e.
Proof. split; [by eexists _, _, _|by eexists _, _]. Qed.

Lemma training_runs_num_epochs_witness :
  (forall e, e < num_epochs ->
     epoch_ready (constant_loss 1) [pair_a; pair_b] [pair_c] P_one e)
  /\ exists k',
      @training_cell flat_torch (constant_loss 1) [pair_a; pair_b] [pair_c] P_one
      = (k', Ok tt)
      /\ length (filter (fun c => c = Step) (calls k')) = 25.
Proof.
  split; [intros e _; apply constant_loss_ready|].
  destruct (@training_runs_num_epochs flat_torch (constant_loss 1)
              [pair_a; pair_b] [pair_c] P_one)
    as (k' & Hk & _ & _ & _ & Hs & _).
  - intros e _. apply constant_loss_ready.
  - exists k'. split; [exact Hk|exact Hs].
Defined.

(** C6, as stated, fails: in a run that completes, with mean training loss
    3 and mean validation loss 7 in every epoch, the recorded history holds
    the epoch indices in [epochs] and the training means in [losses];
    [types] stays empty and the validation mean 7 is only printed. *)
Lemma validation_loss_is_not_recorded :
  let r := @training_cell flat_torch (recording_loss 3 7) [pair_a] [pair_b] P_one in
  snd r = Ok tt
  /\ epochs (fst r) = range 25
  /\ losses (fst r) = replicate 25 3%float
  /\ types (fst r) = []
  /\ stdout (fst r) = map (fun epoch => (epoch, 25, 7%float)) (range 25).
Proof. vm_compute. repeat split. Qed.

(** C6, amended: after training completes, for every epoch index [i] below
    [num_epochs] the history holds [i] at position [i] of [epochs] and the
    mean training loss of epoch [i] at position [i] of [losses]; the mean
    validation loss of the epoch is printed, with the epoch index, and not
    recorded; [types] stays empty. *)
Theorem history_after_training `{Torch} (b : blanks)
    (train_pairs val_pairs : list pair) (P0 : tensor) (k' : kernel) :
  training_cell b train_pairs val_pairs P0 = (k', Ok tt) ->
  types k' = []
  /\ length (epochs k') = num_epochs
  /\ length (losses k') = num_epochs
  /\ length (stdout k') = num_epochs
  /\ forall i, i < num_epochs ->
       epochs k' !! i = Some (Z.of_nat i)
       /\ (exists x, losses k' !! i = Some x
                     /\ train_mean_at b train_pairs (P_at b train_pairs P0 i) = Ok x)
       /\ (exists y, stdout k' !! i = Some (Z.of_nat i, num_epochs, y)
                     /\ val_mean_at b val_pairs (P_at b train_pairs P0 (S i)) = Ok y).
Proof.
  intros Hk.
  assert (Hr : forall e, e < num_epochs -> epoch_ready b train_pairs val_pairs P0 e)
    by (apply training_cell_returns_iff; by exists k').
  destruct (training_cell_run b train_pairs val_pairs P0 Hr) as (k'' & Hk' & Ha).
  rewrite Hk in Hk'. injection Hk' as <-.
  destruct Ha as [_ _ He Hty Hl Ho _].
  split; [done|].
  assert (Hle : length (epochs k') = num_epochs)
    by (rewrite He; unfold range; by rewrite length_map, length_seq).
  assert (Hll : length (losses k') = num_epochs).
  { apply (f_equal length) in Hl. by rewrite !length_fmap, length_seq in Hl. }
  assert (Hlo : length (stdout k') = num_epochs).
  { apply (f_equal length) in Ho. by rewrite !length_fmap, length_seq in Ho. }
  split; [done|]. split; [done|]. split; [done|].
  intros i Hi. split; [|split].
  - rewrite He. unfold range. rewrite list_lookup_fmap, lookup_seq_lt by done. done.
  - apply (f_equal (fun l => l !! i)) in Hl.
    rewrite !list_lookup_fmap, lookup_seq_lt in Hl by done.
    destruct (losses k' !! i) as [x|]; [|done].
    exists x. split; [done|]. simpl in Hl. by injection Hl.
  - apply (f_equal (fun l => l !! i)) in Ho.
    rewrite !list_lookup_fmap, lookup_seq_lt in Ho by done.
    destruct (stdout k' !! i) as [[[ep n] y]|]; [|done].
    simpl in Ho. injection Ho as -> -> Hy. by exists y.
Qed.

Lemma pair_with_snd {A B} (r : A * B) (y : B) : snd r = y -> r = (fst r, y).
Proof. destruct r. simpl. by intros ->. Qed.

Lemma history_after_training_witness :
  let r := @training_cell flat_torch (recording_loss 3 7) [pair_a] [pair_b] P_one in
  r = (fst r, Ok tt)
  /\ types (fst r) = []
  /\ length (epochs (fst r)) = num_epochs
  /\ length (losses (fst r)) = num_epochs.
Proof.
  cbv zeta.
  assert (Hk : @training_cell flat_torch (recording_loss 3 7) [pair_a] [pair_b] P_one
               = (fst (@training_cell flat_torch (recording_loss 3 7)
                         [pair_a] [pair_b] P_one), Ok tt))
    by (apply pair_with_snd; vm_compute; reflexivity).
  split; [exact Hk|].
  destruct (@history_after_training flat_torch (recording_loss 3 7) [pair_a] [pair_b]
              P_one _ Hk) as (Hty & He & Hl & _).
  split; [exact Hty|]. split; [exact He|exact Hl].
Defined.

(** C7, as stated, fails: with the empty pair sets of the notebook as
    shipped, with an empty training set, and with an empty validation set,
    the loop raises [AttributeError], which is not [EmptyPairSetError]. *)
Lemma empty_pair_sets_raise_AttributeError :
  let r0 := @training_cell flat_torch shipped [] [] P_one in
  let r := @training_cell flat_torch shipped [] [pair_b] P_one in
  let r' := @training_cell flat_torch (constant_loss 1) [pair_a] [] P_one in
  snd r0 = Raise AttributeError
  /\ snd r = Raise AttributeError
  /\ snd r <> Raise (UserError "EmptyPairSetError")
  /\ snd r' = Raise AttributeError
  /\ snd r' <> Raise (UserError "EmptyPairSetError")
  /\ calls (fst r') = [ZeroGrad; LossFunc true pair_a; Backward; Step].
Proof. vm_compute. repeat split; discriminate. Qed.

(** C7, amended: with an empty training set the loop fails in its first
    epoch with [AttributeError], at [train_loss.backward()] on the float
    [0.0], before any update of [P]; with an empty validation set and a
    training loss that is a tensor with a gradient and a single value, the
    first epoch takes its optimizer step and then fails with
    [AttributeError], at [val_loss.item()] on the float [0.0], before
    anything is printed or recorded. *)
Theorem empty_pair_set_fails_first_epoch `{Torch} (b : blanks)
    (train_pairs val_pairs : list pair) (P0 : tensor) :
  (exists k',
      training_cell b [] val_pairs P0 = (k', Raise AttributeError)
      /\ P k' = P0 /\ calls k' = [ZeroGrad] /\ epochs k' = [] /\ losses k' = []
      /\ stdout k' = [])
  /\ ((exists t g x,
          train_loss_at b train_pairs P0 = Ok (VTensor t)
          /\ grad_fn t = Some g /\ item t = Some x) ->
      exists k',
        training_cell b train_pairs [] P0 = (k', Raise AttributeError)
        /\ P k' = P_at b train_pairs P0 1
        /\ calls k' = [ZeroGrad] ++ map (LossFunc true) train_pairs ++ [Backward; Step]
        /\ epochs k' = [] /\ losses k' = [] /\ stdout k' = []).
Proof.
  split.
  - eexists. split.
    + apply training_loop_first_epoch_raises. unfold epoch_body.
      unfold mbind at 1, cell_bind at 1. rewrite training_pass_empty. reflexivity.
    + done.
  - intros (t & g & x & Ht & Hg & Hx). eexists. split.
    + apply training_loop_first_epoch_raises. unfold epoch_body.
      unfold mbind at 1, cell_bind at 1.
      rewrite (training_pass_run b train_pairs (initial_kernel P0) t g x Ht Hg Hx).
      unfold mbind at 1, cell_bind at 1. rewrite validation_pass_run. reflexivity.
    + cbn [P calls epochs losses stdout add_calls trained initial_kernel
           loop_calls grad_enabled P_grad optimizer app].
      repeat split; try done.
      * unfold P_at. rewrite (P_at_S b train_pairs P0 0 g t Ht Hg). reflexivity.
      * by rewrite app_nil_r.
Qed.

(** With an empty validation set and a training loss of two entries, the
    first epoch stops at [train_loss.backward()] with [RuntimeError], before
    the optimizer step. *)
Example two_entry_loss_stops_at_backward :
  let r := @training_cell flat_torch wide_loss [pair_a] [] P_one in
  snd r = Raise RuntimeError
  /\ calls (fst r) = [ZeroGrad; LossFunc true pair_a; Backward]
  /\ optimizer (fst r) = 0
  /\ P (fst r) = P_one.
Proof. vm_compute. repeat split. Qed.

Lemma empty_pair_set_fails_first_epoch_witness :
  exists k',
    @training_cell flat_torch (constant_loss 1) [pair_a] [] P_one
    = (k', Raise AttributeError)
    /\ calls k' = [ZeroGrad; LossFunc true pair_a; Backward; Step].
Proof.
  destruct (@empty_pair_set_fails_first_epoch flat_torch (constant_loss 1)
              [pair_a] [] P_one) as [_ Hv].
  destruct Hv as (k' & Hk & _ & Hc & _).
  - by eexists _, _, _.
  - exists k'. split; [exact Hk|exact Hc].
Defined.

(** C8, as stated, fails: with a loss that is NaN in every epoch, or
    infinite in every epoch, training is not aborted; it runs through all
    25 epochs, steps the optimizer in each and records the non-finite means. *)
Lemma nonfinite_loss_does_not_abort :
  let r := @training_cell flat_torch (constant_loss nan) [pair_a; pair_b] [pair_c] P_one in
  let r' := @training_cell flat_torch (constant_loss infinity) [pair_a; pair_b] [pair_c] P_one in
  snd r = Ok tt
  /\ snd r <> Raise (UserError "DivergedTrainingError")
  /\ losses (fst r) = replicate 25 nan
  /\ optimizer (fst r) = 25
  /\ snd r' = Ok tt
  /\ losses (fst r') = replicate 25 infinity
  /\ optimizer (fst r') = 25.
Proof. vm_compute. repeat split. discriminate. Qed.

(** C8, amended: the loop performs no finiteness check.  When every epoch
    is ready, training completes all [num_epochs] epochs, with the calls
    of every epoch, [backward] and the optimizer step among them, whatever
    the values of the losses.  For every epoch whose training loss is
    non-finite, the mean recorded in [losses] for that epoch is non-finite,
    and for every epoch whose validation loss is non-finite the mean
    printed for it is non-finite; the epochs after it run all the same. *)
Theorem training_continues_on_nonfinite_loss `{Torch} (b : blanks)
    (train_pairs val_pairs : list pair) (P0 : tensor) :
  (forall e, e < num_epochs -> epoch_ready b train_pairs val_pairs P0 e) ->
  (Z.of_nat (length train_pairs) < 2 ^ 53)%Z ->
  (Z.of_nat (length val_pairs) < 2 ^ 53)%Z ->
  exists k',
    training_cell b train_pairs val_pairs P0 = (k', Ok tt)
    /\ calls k' = concat (replicate num_epochs (epoch_calls train_pairs val_pairs))
    /\ length (filter (fun c => c = Step) (calls k')) = num_epochs
    /\ length (losses k') = num_epochs
    /\ length (stdout k') = num_epochs
    /\ (forall e t x, e < num_epochs ->
          train_loss_at b train_pairs (P_at b train_pairs P0 e) = Ok (VTensor t) ->
          item t = Some x -> is_finite x = false ->
          exists y, losses k' !! e = Some y /\ is_finite y = false)
    /\ (forall e t x, e < num_epochs ->
          val_loss_at b val_pairs (P_at b train_pairs P0 (S e)) = Ok (VTensor t) ->
          item t = Some x -> is_finite x = false ->
          exists y, stdout k' !! e = Some (Z.of_nat e, num_epochs, y)
                    /\ is_finite y = false).
Proof.
  intros Hr Hlen Hlenv.
  destruct (training_cell_run b train_pairs val_pairs P0 Hr) as (k' & Hk & Ha).
  destruct Ha as [_ _ _ _ Hl Ho Hc].
  exists k'. split; [done|]. split; [done|].
  split; [by rewrite Hc, count_Step_epochs|].
  assert (Hll : length (losses k') = num_epochs).
  { apply (f_equal length) in Hl. by rewrite !length_fmap, length_seq in Hl. }
  assert (Hlo : length (stdout k') = num_epochs).
  { apply (f_equal length) in Ho. by rewrite !length_fmap, length_seq in Ho. }
  split; [done|]. split; [done|]. split.
  - intros e t x He Ht Hx Hnf.
    destruct (lookup_lt_is_Some_2 (losses k') e) as [y Hy]; [by rewrite Hll|].
    exists y. split; [done|].
    apply (f_equal (fun l => l !! e)) in Hl.
    rewrite !list_lookup_fmap, lookup_seq_lt, Hy in Hl by done. simpl in Hl.
    injection Hl as Hm.
    unfold train_mean_at in Hm. rewrite Ht in Hm. simpl in Hm.
    rewrite (mean_item_tensor t x) in Hm
      by (done || by eapply sum_losses_tensor_nonempty).
    injection Hm as ->.
    apply nonfinite_mean; [done|].
    pose proof (sum_losses_tensor_nonempty _ _ _ _ Ht). unfold prec. lia.
  - intros e t x He Ht Hx Hnf.
    destruct (lookup_lt_is_Some_2 (stdout k') e) as [[[e' n'] y] Hy]; [by rewrite Hlo|].
    apply (f_equal (fun l => l !! e)) in Ho.
    rewrite !list_lookup_fmap, lookup_seq_lt, Hy in Ho by done. simpl in Ho.
    injection Ho as He' Hn' Hm. subst e' n'.
    exists y. split; [done|].
    unfold val_mean_at in Hm. rewrite Ht in Hm. simpl in Hm.
    rewrite (mean_item_tensor t x) in Hm
      by (done || by eapply sum_losses_tensor_nonempty).
    injection Hm as ->.
    apply nonfinite_mean; [done|].
    pose proof (sum_losses_tensor_nonempty _ _ _ _ Ht). unfold prec. lia.
Qed.

Lemma diverging_once_ready P0 e :
  epoch_ready diverging_once [pair_a; pair_b] [pair_c] P0 e.
Proof. split; [by eexists _, _, _|by eexists _, _]. Qed.

Lemma diverging_once_first_sum :
  @train_loss_at flat_torch diverging_once [pair_a; pair_b]
    (@P_at flat_torch diverging_once [pair_a; pair_b] P_one 0)
  = Ok (VTensor ({| entries := [nan]; requires_grad := true |} : @tensor flat_torch)).
Proof. reflexivity. Qed.

(** A loss that is NaN in the first epoch only: the run completes, the
    first recorded mean is NaN and the 24 after it are 1. *)
Example diverging_once_run :
  let r := @training_cell flat_torch diverging_once [pair_a; pair_b] [pair_c] P_one in
  snd r = Ok tt /\ losses (fst r) = nan :: replicate 24 1%float.
Proof. vm_compute. by split. Qed.

Lemma training_continues_on_nonfinite_loss_witness :
  (forall e, e < num_epochs ->
     epoch_ready diverging_once [pair_a; pair_b] [pair_c] P_one e)
  /\ (Z.of_nat (length [pair_a; pair_b]) < 2 ^ 53)%Z
  /\ (Z.of_nat (length [pair_c]) < 2 ^ 53)%Z
  /\ exists k',
      @training_cell flat_torch diverging_once [pair_a; pair_b] [pair_c] P_one
      = (k', Ok tt)
      /\ length (filter (fun c => c = Step) (calls k')) = num_epochs
      /\ exists y, losses k' !! 0 = Some y /\ is_finite y = false.
Proof.
  split; [intros e _; apply diverging_once_ready|].
  split; [reflexivity|]. split; [reflexivity|].
  destruct (@training_continues_on_nonfinite_loss flat_torch diverging_once
              [pair_a; pair_b] [pair_c] P_one)
    as (k' & Hk & _ & Hs & _ & _ & Hnf & _).
  - intros e _. apply diverging_once_ready.
  - reflexivity.
  - reflexivity.
  - exists k'. split; [exact Hk|]. split; [exact Hs|].
    apply (Hnf 0 _ nan ltac:(unfold num_epochs; lia) diverging_once_first_sum);
      reflexivity.
Defined.

Lemma epoch_body_unfold `{Torch} (b : blanks) train_pairs val_pairs epoch k :
  epoch_body b train_pairs val_pairs epoch k
  = match training_pass b train_pairs k with
    | (k1, Ok train_loss) =>
        let k2 := add_calls (loop_calls b {| v_P := P k1; v_grad_enabled := false |}
                               val_pairs (VFloat 0)) k1 in
        match val_loss_at b val_pairs (P k1) with
        | Ok val_loss => record_epoch train_pairs val_pairs epoch train_loss val_loss k2
        | Raise e => (k2, Raise e)
        end
    | (k1, Raise e) => (k1, Raise e)
    end.
Proof.
  unfold epoch_body. unfold mbind at 1, cell_bind at 1.
  destruct (training_pass b train_pairs k) as [k1 [train_loss|e]]; [|done].
  unfold mbind at 1, cell_bind at 1. rewrite validation_pass_run.
  by destruct (val_loss_at b val_pairs (P k1)).
Qed.

Lemma record_epoch_frame `{Torch} train_pairs val_pairs epoch train_loss val_loss k :
  let k' := fst (record_epoch train_pairs val_pairs epoch train_loss val_loss k) in
  P k' = P k /\ P_grad k' = P_grad k /\ optimizer k' = optimizer k.
Proof.
  unfold record_epoch. run_cell.
  destruct (mean_item val_loss _); [|done]. simpl.
  destruct (mean_item train_loss _); done.
Qed.

(** The validation pass on its own: it runs the loop over the validation
    pairs with autograd recording switched off and leaves [P], its gradient
    and the optimizer as they were, whether it returns or raises; recording
    is restored afterwards and nothing is printed or recorded by the pass. *)
Lemma validation_pass_leaves_parameters `{Torch} (b : blanks)
    (val_pairs : list pair) (k : kernel) :
  let r := validation_pass b val_pairs k in
  P (fst r) = P k
  /\ P_grad (fst r) = P_grad k
  /\ optimizer (fst r) = optimizer k
  /\ grad_enabled (fst r) = grad_enabled k
  /\ (epochs (fst r), types (fst r), losses (fst r), stdout (fst r))
     = (epochs k, types k, losses k, stdout k)
  /\ snd r = val_loss_at b val_pairs (P k)
  /\ (exists n, calls (fst r) = calls k ++ map (LossFunc false) (take n val_pairs))
  /\ (returns (snd r) -> calls (fst r) = calls k ++ map (LossFunc false) val_pairs)
  /\ forall train_pairs epoch,
       P (fst (epoch_body b train_pairs val_pairs epoch k))
       = P (fst (training_pass b train_pairs k)).
Proof.
  cbv zeta. rewrite validation_pass_run. cbn [fst snd add_calls P P_grad optimizer
    grad_enabled epochs types losses stdout calls].
  repeat split.
  - destruct (loop_calls_prefix b {| v_P := P k; v_grad_enabled := false |}
                val_pairs (VFloat 0)) as [n Hn].
    exists n. by rewrite Hn.
  - intros Hr. by rewrite (loop_calls_complete b _ _ _ Hr).
  - intros train_pairs epoch. unfold epoch_body.
    unfold mbind at 1, cell_bind at 1.
    destruct (training_pass b train_pairs k) as [k1 [train_loss|e]]; [|done].
    unfold mbind at 1, cell_bind at 1. rewrite validation_pass_run.
    destruct (val_loss_at b val_pairs (P k1)) as [val_loss|e]; [|done].
    by destruct (record_epoch_frame train_pairs val_pairs epoch train_loss val_loss
                   (add_calls (loop_calls b {| v_P := P k1; v_grad_enabled := false |}
                                 val_pairs (VFloat 0)) k1)) as [-> _].
Qed.

(** C9, as stated, fails: an epoch whose training pass raises computes no
    validation loss.  In the notebook as shipped, and also with a
    [loss_func] that returns Python floats, the first epoch stops in its
    training pass: [loss_func] is never called with recording off for the
    validation pair and nothing is printed. *)
Lemma failing_epoch_skips_validation :
  let r := @training_cell flat_torch shipped [pair_a] [pair_b] P_one in
  let r' := @training_cell flat_torch (float_loss 1) [pair_a] [pair_b] P_one in
  calls (fst r) = [ZeroGrad; LossFunc true pair_a]
  /\ (LossFunc false pair_b ∉ calls (fst r))
  /\ stdout (fst r) = []
  /\ snd r' = Raise AttributeError
  /\ calls (fst r') = [ZeroGrad; LossFunc true pair_a]
  /\ (LossFunc false pair_b ∉ calls (fst r'))
  /\ stdout (fst r') = [].
Proof.
  cbv zeta.
  assert (Hc : calls (fst (@training_cell flat_torch shipped [pair_a] [pair_b] P_one))
               = [ZeroGrad; LossFunc true pair_a]) by reflexivity.
  assert (Hc' : calls (fst (@training_cell flat_torch (float_loss 1) [pair_a] [pair_b]
                              P_one))
                = [ZeroGrad; LossFunc true pair_a]) by reflexivity.
  rewrite Hc, Hc'.
  assert (Hn : LossFunc false pair_b ∉ [ZeroGrad; LossFunc true pair_a]).
  { intros [?|[?|?%elem_of_nil]%elem_of_cons]%elem_of_cons; done. }
  repeat split; done.
Qed.

(** C9, amended: in every epoch whose training pass goes through, the
    validation loss is computed next, over the validation pairs in order,
    with the parameter the optimizer step left and with autograd recording
    switched off, and computing it leaves [P], its gradient and the
    optimizer unchanged, whether the loop over the validation pairs ends or
    raises; when it ends, its mean is what the epoch prints.  An epoch
    whose training pass raises computes no validation loss.  In a run
    whose epochs are all ready, every epoch prints the mean validation loss
    for the parameter after its optimizer step. *)
Theorem validation_follows_training_pass `{Torch} (b : blanks)
    (train_pairs val_pairs : list pair) (P0 : tensor) :
  (forall (epoch : Z) (k : kernel),
      let t := training_pass b train_pairs k in
      let r := epoch_body b train_pairs val_pairs epoch k in
      match snd t with
      | Raise e => r = (fst t, Raise e)
      | Ok train_loss =>
          P (fst r) = P (fst t)
          /\ P_grad (fst r) = P_grad (fst t)
          /\ optimizer (fst r) = optimizer (fst t)
          /\ grad_enabled (fst r) = grad_enabled (fst t)
          /\ (exists n, calls (fst r)
                        = calls (fst t) ++ map (LossFunc false) (take n val_pairs))
          /\ match val_loss_at b val_pairs (P (fst t)) with
             | Raise e => snd r = Raise e /\ stdout (fst r) = stdout (fst t)
             | Ok val_loss =>
                 calls (fst r) = calls (fst t) ++ map (LossFunc false) val_pairs
                 /\ match mean_item val_loss (length val_pairs) with
                    | Ok x => stdout (fst r) = stdout (fst t) ++ [(epoch, num_epochs, x)]
                    | Raise e => snd r = Raise e /\ stdout (fst r) = stdout (fst t)
                    end
             end
      end)
  /\ ((forall e, e < num_epochs -> epoch_ready b train_pairs val_pairs P0 e) ->
      exists k',
        training_cell b train_pairs val_pairs P0 = (k', Ok tt)
        /\ calls k' = concat (replicate num_epochs (epoch_calls train_pairs val_pairs))
        /\ forall e, e < num_epochs ->
             exists x,
               val_mean_at b val_pairs (P_at b train_pairs P0 (S e)) = Ok x
               /\ stdout k' !! e = Some (Z.of_nat e, num_epochs, x)).
Proof.
  split.
  - intros epoch k. cbv zeta. rewrite epoch_body_unfold.
    destruct (training_pass b train_pairs k) as [k1 [train_loss|e]]; [|done].
    cbn [fst snd].
    destruct (loop_calls_prefix b {| v_P := P k1; v_grad_enabled := false |}
                val_pairs (VFloat 0)) as [n Hn].
    destruct (val_loss_at b val_pairs (P k1)) as [val_loss|e] eqn:Hv.
    + assert (Hc : loop_calls b {| v_P := P k1; v_grad_enabled := false |}
                     val_pairs (VFloat 0) = map (LossFunc false) val_pairs).
      { apply (loop_calls_complete b {| v_P := P k1; v_grad_enabled := false |}).
        by exists val_loss. }
      rewrite Hc. unfold record_epoch. run_cell.
      assert (Hall : exists n0, calls k1 ++ map (LossFunc false) val_pairs
                               = calls k1 ++ map (LossFunc false) (take n0 val_pairs))
        by (exists (length val_pairs); by rewrite firstn_all).
      destruct (mean_item val_loss (length val_pairs)) as [x|e]; simpl.
      * by destruct (mean_item train_loss (length train_pairs)) as [y|e]; simpl.
      * done.
    + cbn [fst snd add_calls P P_grad optimizer grad_enabled stdout calls].
      repeat split; try done. exists n. by rewrite Hn.
  - intros Hr.
    destruct (training_cell_run b train_pairs val_pairs P0 Hr) as (k' & Hk & Ha).
    destruct Ha as [_ _ _ _ _ Ho Hc].
    exists k'. split; [done|]. split; [done|].
    intros e He.
    assert (Hlo : length (stdout k') = num_epochs).
    { apply (f_equal length) in Ho. by rewrite !length_fmap, length_seq in Ho. }
    destruct (lookup_lt_is_Some_2 (stdout k') e) as [[[e' n'] x] Hx]; [by rewrite Hlo|].
    apply (f_equal (fun l => l !! e)) in Ho.
    rewrite !list_lookup_fmap, lookup_seq_lt, Hx in Ho by done. simpl in Ho.
    injection Ho as He' Hn' Hm. subst e' n'.
    exists x. by split.
Qed.

Lemma validation_follows_training_pass_witness :
  (forall e, e < num_epochs ->
     epoch_ready (recording_loss 3 7) [pair_a] [pair_b] P_one e)
  /\ exists k',
      @training_cell flat_torch (recording_loss 3 7) [pair_a] [pair_b] P_one = (k', Ok tt)
      /\ forall e, e < num_epochs ->
           exists x,
             @val_mean_at flat_torch (recording_loss 3 7) [pair_b]
               (@P_at flat_torch (recording_loss 3 7) [pair_a] P_one (S e)) = Ok x
             /\ stdout k' !! e = Some (Z.of_nat e, num_epochs, x).
Proof.
  assert (Hr : forall e, e < num_epochs ->
                 epoch_ready (recording_loss 3 7) [pair_a] [pair_b] P_one e).
  { intros e _. split; [by eexists _, _, _|by eexists _, _]. }
  split; [exact Hr|].
  destruct (@validation_follows_training_pass flat_torch (recording_loss 3 7)
              [pair_a] [pair_b] P_one) as [_ Hrun].
  destruct (Hrun Hr) as (k' & Hk & _ & Ho).
  exists k'. split; [exact Hk|exact Ho].
Defined.

(** ** The dataset parser *)

(** *** Strings *)

Lemma str_app_cons c (a b : string) : String c a +:+ b = String c (a +:+ b).
Proof. done. Qed.

Lemma str_app_nil_l (b : string) : EmptyString +:+ b = b.
Proof. done. Qed.

Lemma str_app_assoc (a b c : string) : (a +:+ b) +:+ c = a +:+ (b +:+ c).
Proof.
  induction a as [|x a IH]; [done|].
  change (String x ((a +:+ b) +:+ c) = String x (a +:+ b +:+ c)). by rewrite IH.
Qed.

Lemma str_split_length sep s : length (str_split sep s) = S (str_count sep s).
Proof.
  induction s as [|c s IH]; [done|]. simpl.
  destruct (Ascii.eqb c sep); simpl; [by rewrite IH|].
  destruct (str_split sep s); simpl in *; lia.
Qed.

Lemma str_join_split sep s : str_join (String sep EmptyString) (str_split sep s) = s.
Proof.
  induction s as [|c s IH]; [done|]. simpl.
  destruct (Ascii.eqb_spec c sep) as [->|Hc].
  - pose proof (str_split_length sep s) as Hl.
    destruct (str_split sep s) as [|w ws] eqn:E; [done|].
    change (str_join (String sep EmptyString) (EmptyString :: w :: ws))
      with (String sep (str_join (String sep EmptyString) (w :: ws))).
    by rewrite IH.
  - pose proof (str_split_length sep s) as Hl.
    destruct (str_split sep s) as [|w ws] eqn:E; [done|].
    destruct ws as [|w' ws]; simpl in *; by rewrite <- IH.
Qed.

Lemma str_split_app sep a b :
  str_split sep (a +:+ String sep b) = str_split sep a ++ str_split sep b.
Proof.
  induction a as [|c a IH]; simpl.
  - by rewrite Ascii.eqb_refl.
  - rewrite IH. destruct (Ascii.eqb c sep); [done|].
    pose proof (str_split_length sep a) as Hl.
    by destruct (str_split sep a).
Qed.

Lemma str_split_no_sep sep s : str_count sep s = 0 -> str_split sep s = [s].
Proof.
  induction s as [|c s IH]; [done|]. simpl.
  destruct (Ascii.eqb c sep); [done|]. intros H. by rewrite IH.
Qed.

Lemma str_split_parts sep s w : w ∈ str_split sep s -> str_count sep w = 0.
Proof.
  revert w. induction s as [|c s IH]; intros w; simpl.
  - by intros ->%list_elem_of_singleton.
  - destruct (Ascii.eqb c sep) eqn:Hc.
    + intros [->|Hw]%elem_of_cons; [done|by apply IH].
    + destruct (str_split sep s) as [|v vs]; simpl.
      * intros ->%list_elem_of_singleton. simpl. by rewrite Hc.
      * intros [->|Hw]%elem_of_cons.
        -- simpl. rewrite Hc. apply IH. by left.
        -- apply IH. by right.
Qed.

Lemma str_join_cons sep w l :
  l <> [] -> str_join sep (w :: l) = w +:+ sep +:+ str_join sep l.
Proof. by destruct l. Qed.

Lemma str_join_snoc sep l w :
  l <> [] -> str_join sep (l ++ [w]) = str_join sep l +:+ sep +:+ w.
Proof.
  induction l as [|v l IH]; [done|]. intros _. destruct l as [|v' l]; [done|].
  change ((v :: v' :: l) ++ [w]) with (v :: (v' :: l) ++ [w]).
  rewrite !str_join_cons by done. rewrite IH by done.
  by rewrite !str_app_assoc.
Qed.

Lemma str_lstrip_space w s : all_space w = true -> str_lstrip (w +:+ s) = str_lstrip s.
Proof.
  induction w as [|c w IH]; [done|]. simpl. intros [Hc Hw]%andb_prop.
  rewrite Hc. auto.
Qed.

Lemma str_lstrip_all_space w : all_space w = true -> str_lstrip w = EmptyString.
Proof.
  induction w as [|c w IH]; [done|]. simpl. intros [Hc Hw]%andb_prop.
  by rewrite Hc, IH.
Qed.

Lemma str_lstrip_app t w :
  str_lstrip (t +:+ w) = if all_space t then str_lstrip w else str_lstrip t +:+ w.
Proof.
  induction t as [|c t IH]; [done|]. rewrite str_app_cons. simpl.
  destruct (str_isspace c); [by rewrite IH|done].
Qed.

Lemma str_rstrip_all_space w : all_space w = true -> str_rstrip w = EmptyString.
Proof.
  induction w as [|c w IH]; [done|]. simpl. intros [Hc Hw]%andb_prop.
  by rewrite (IH Hw), Hc.
Qed.

Lemma str_rstrip_space w s : all_space w = true -> str_rstrip (s +:+ w) = str_rstrip s.
Proof.
  intros Hw. induction s as [|c s IH]; simpl.
  - by apply str_rstrip_all_space.
  - by rewrite IH.
Qed.

Lemma str_rstrip_last s c :
  str_last s = Some c -> str_isspace c = false -> str_rstrip s = s.
Proof.
  induction s as [|d s IH]; [done|]. simpl.
  destruct s as [|d' s].
  - intros [= ->] Hc. simpl. by rewrite Hc.
  - intros Hl Hc. rewrite (IH Hl Hc). done.
Qed.

Lemma str_lstrip_first s c :
  str_first s = Some c -> str_isspace c = false -> str_lstrip s = s.
Proof. destruct s; [done|]. simpl. intros [= ->] ->. done. Qed.

Lemma str_last_app a b c : str_last b = Some c -> str_last (a +:+ b) = Some c.
Proof.
  intros Hb. induction a as [|d a IH]; [done|]. simpl.
  destruct (a +:+ b) eqn:E; [|done].
  done.
Qed.

Lemma str_first_app a b c : str_first a = Some c -> str_first (a +:+ b) = Some c.
Proof. by destruct a. Qed.

Lemma str_strip_core w1 core w2 c d :
  all_space w1 = true -> all_space w2 = true ->
  str_first core = Some c -> str_isspace c = false ->
  str_last core = Some d -> str_isspace d = false ->
  str_strip (w1 +:+ core +:+ w2) = core.
Proof.
  intros H1 H2 Hc Hc' Hd Hd'. unfold str_strip.
  rewrite str_lstrip_space by done.
  rewrite (str_lstrip_first _ c); [|by apply str_first_app|done].
  rewrite str_rstrip_space by done. by apply (str_rstrip_last _ d).
Qed.

Lemma str_strip_pad w1 t w2 :
  all_space w1 = true -> all_space w2 = true ->
  str_strip (w1 +:+ t +:+ w2) = str_strip t.
Proof.
  intros H1 H2. unfold str_strip. rewrite str_lstrip_space by done.
  rewrite str_lstrip_app. destruct (all_space t) eqn:Ht.
  - by rewrite !str_lstrip_all_space.
  - by rewrite str_rstrip_space.
Qed.

Lemma starts_nonspace_first s :
  starts_nonspace s = true -> exists c, str_first s = Some c /\ str_isspace c = false.
Proof.
  unfold starts_nonspace. destruct (str_first s) as [c|]; [|done].
  intros H%negb_true_iff. by exists c.
Qed.

Lemma ends_nonspace_last s :
  ends_nonspace s = true -> exists c, str_last s = Some c /\ str_isspace c = false.
Proof.
  unfold ends_nonspace. destruct (str_last s) as [c|]; [|done].
  intros H%negb_true_iff. by exists c.
Qed.

(** *** Slices *)

Lemma py_slice_inner {A} (x y : A) (m : list A) : py_slice (x :: m ++ [y]) 1 (-1) = m.
Proof.
  unfold py_slice, py_slice_index.
  replace (length (x :: m ++ [y])) with (S (S (length m)))
    by (simpl; rewrite length_app; simpl; lia).
  change (-1 <? 0)%Z with true. change (1 <? 0)%Z with false. cbv iota.
  replace (Z.to_nat (Z.max 0 (Z.of_nat (S (S (length m))) + -1))) with (S (length m)) by lia.
  replace (Z.to_nat 1 `min` S (S (length m))) with 1 by lia.
  replace (S (length m) - 1) with (length m) by lia.
  simpl. rewrite drop_0. by rewrite take_app_length.
Qed.

Lemma py_slice_short {A} (l : list A) : length l <= 2 -> py_slice l 1 (-1) = [].
Proof.
  intros Hl. unfold py_slice, py_slice_index.
  change (-1 <? 0)%Z with true. change (1 <? 0)%Z with false. cbv iota.
  apply length_zero_iff_nil. rewrite length_take, length_drop. lia.
Qed.

Lemma list_first_last {A} (l : list A) :
  3 <= length l -> exists x m y, l = x :: m ++ [y] /\ m <> [].
Proof.
  intros Hl. destruct l as [|x l]; [simpl in Hl; lia|].
  destruct (decide (l = [])) as [->|Hne]; [simpl in Hl; lia|].
  destruct (exists_last Hne) as (m & y & ->).
  exists x, m, y. split; [done|]. intros ->. simpl in Hl. lia.
Qed.

(** *** The code of a snippet *)

(** The two subscripts of the loop body are in range whatever the text. *)
Lemma snippet_filename_returns first_line : returns (snippet_filename first_line).
Proof.
  unfold snippet_filename, returns, py_getitem.
  destruct (1 <? length (str_split space first_line)) eqn:E; [|by eexists].
  apply Nat.ltb_lt in E.
  destruct (lookup_lt_is_Some_2 (str_split space first_line) 1 E) as [x ->].
  by eexists.
Qed.

Lemma snippet_code_lines t :
  snippet_code t
  = Ok (str_join nl (py_slice (str_split newline (str_strip t)) 1 (-1))).
Proof.
  unfold snippet_code, py_getitem.
  pose proof (str_split_length newline (str_strip t)) as Hl.
  destruct (str_split newline (str_strip t)) as [|first_line rest] eqn:E; [done|].
  simpl. destruct (snippet_filename_returns first_line) as [f ->]. done.
Qed.

Lemma snippet_code_returns t : returns (snippet_code t).
Proof. rewrite snippet_code_lines. by eexists. Qed.

(** X1: the code taken from a snippet whose text is a fenced block, that is
    a header line, a body, and a footer line, possibly surrounded by white
    space, is the body, verbatim.  The header must begin and the footer end
    with a character that is not white space. *)
Theorem snippet_code_of_fenced_block (w1 header body footer w2 : string) :
  all_space w1 = true -> all_space w2 = true ->
  starts_nonspace header = true -> one_line header = true ->
  ends_nonspace footer = true -> one_line footer = true ->
  snippet_code (w1 +:+ (header +:+ nl +:+ body +:+ nl +:+ footer) +:+ w2) = Ok body.
Proof.
  intros H1 H2 [c [Hc Hc']]%starts_nonspace_first Hh%Nat.eqb_eq
         [d [Hd Hd']]%ends_nonspace_last Hf%Nat.eqb_eq.
  rewrite snippet_code_lines.
  rewrite (str_strip_core w1 _ w2 c d); [|done|done|by apply str_first_app|done| |done].
  - unfold nl. rewrite !str_app_cons, !str_app_nil_l.
    rewrite !str_split_app, (str_split_no_sep _ header), (str_split_no_sep _ footer) by done.
    change ([header] ++ str_split newline body ++ [footer])
      with (header :: str_split newline body ++ [footer]).
    by rewrite py_slice_inner, str_join_split.
  - do 4 apply str_last_app. exact Hd.
Qed.

Lemma snippet_code_of_fenced_block_witness :
  all_space nl = true /\ starts_nonspace "```python a.py" = true
  /\ one_line "```python a.py" = true /\ ends_nonspace "```" = true
  /\ one_line "```" = true
  /\ snippet_code sample_snippet_text = Ok sample_code.
Proof.
  repeat (split; [reflexivity|]).
  apply (snippet_code_of_fenced_block nl "```python a.py" sample_code "```" nl);
    reflexivity.
Defined.

(** X2: when the stripped text of a snippet has at least three lines, the
    code is exactly what lies between its first and its last line: the
    stripped text is the first line, a newline, the code, a newline and the
    last line. *)
Theorem snippet_code_between_first_and_last_line (t : string) :
  2 <= str_count newline (str_strip t) ->
  exists first_line code last_line,
    snippet_code t = Ok code
    /\ str_count newline first_line = 0 /\ str_count newline last_line = 0
    /\ str_strip t = first_line +:+ nl +:+ code +:+ nl +:+ last_line.
Proof.
  intros Hn. rewrite snippet_code_lines.
  pose proof (str_split_length newline (str_strip t)) as Hl.
  pose proof (str_join_split newline (str_strip t)) as Hj.
  pose proof (str_split_parts newline (str_strip t)) as Hp.
  destruct (list_first_last (str_split newline (str_strip t))) as (x & m & y & E & Hm); [lia|].
  rewrite E in *. exists x, (str_join nl m), y.
  rewrite py_slice_inner. split; [done|].
  split; [apply Hp; by left|]. split; [apply Hp; right; apply elem_of_app; right; by left|].
  rewrite <- Hj. fold nl. rewrite str_join_cons, str_join_snoc; [done|done|].
  by destruct m.
Qed.

Lemma snippet_code_between_first_and_last_line_witness :
  2 <= str_count newline (str_strip sample_snippet_text)
  /\ exists first_line code last_line,
      snippet_code sample_snippet_text = Ok code
      /\ str_count newline first_line = 0 /\ str_count newline last_line = 0
      /\ str_strip sample_snippet_text = first_line +:+ nl +:+ code +:+ nl +:+ last_line.
Proof.
  split; [vm_compute; lia|].
  apply (snippet_code_between_first_and_last_line sample_snippet_text).
  vm_compute. lia.
Defined.

(** X3: a snippet whose stripped text has fewer than three lines yields
    the empty string as its code; no error is raised. *)
Theorem snippet_code_of_short_text (t : string) :
  str_count newline (str_strip t) <= 1 -> snippet_code t = Ok EmptyString.
Proof.
  intros H. rewrite snippet_code_lines, py_slice_short; [done|].
  rewrite str_split_length. lia.
Qed.

Lemma snippet_code_of_short_text_witness :
  str_count newline (str_strip ("```b.py" +:+ nl +:+ "```")) <= 1
  /\ snippet_code ("```b.py" +:+ nl +:+ "```") = Ok EmptyString.
Proof.
  split; [vm_compute; lia|].
  apply (snippet_code_of_short_text ("```b.py" +:+ nl +:+ "```")).
  vm_compute. lia.
Defined.

(** X4: white space before and after the text of a snippet does not change
    the code taken from it. *)
Theorem snippet_code_ignores_padding (w1 t w2 : string) :
  all_space w1 = true -> all_space w2 = true ->
  snippet_code (w1 +:+ t +:+ w2) = snippet_code t.
Proof. intros H1 H2. by rewrite !snippet_code_lines, str_strip_pad. Qed.

Lemma snippet_code_ignores_padding_witness :
  all_space (nl +:+ "  ") = true /\ all_space nl = true
  /\ snippet_code ((nl +:+ "  ") +:+ sample_snippet_text +:+ nl)
     = snippet_code sample_snippet_text.
Proof.
  split; [reflexivity|]. split; [reflexivity|].
  apply (snippet_code_ignores_padding (nl +:+ "  ") sample_snippet_text nl);
    reflexivity.
Defined.

(** *** The two loops *)

Lemma parse_snippets_outcome l acc :
  match parse_snippets l acc with
  | Ok r => Forall (fun snippet => is_Some (text snippet)) l
            /\ exists codes, r = acc ++ codes /\ Forall2 snippet_parsed l codes
  | Raise e => e = AttributeError
               /\ ~ Forall (fun snippet => is_Some (text snippet)) l
  end.
Proof.
  revert acc. induction l as [|snippet rest IH]; intros acc; simpl.
  - split; [done|]. exists []. by rewrite app_nil_r.
  - unfold parse_snippet. destruct (text snippet) as [t|] eqn:Ht; simpl.
    + destruct (snippet_code_returns t) as [code Hcode]. rewrite Hcode. simpl.
      specialize (IH (acc ++ [code])).
      destruct (parse_snippets rest (acc ++ [code])) as [r|e].
      * destruct IH as [Hall [codes [-> H2]]]. split.
        { constructor; [by rewrite Ht|done]. }
        exists (code :: codes). rewrite <- app_assoc. split; [done|].
        constructor; [by exists t|done].
      * destruct IH as [-> Hn]. split; [done|].
        intros H. apply Hn. by inversion H.
    + split; [done|]. intros H. inversion H as [|? ? [x Hx]]; subst. congruence.
Qed.

Lemma parse_example_outcome example :
  match parse_example example with
  | Ok o => well_formed example /\ example_parsed example o
  | Raise e => e = AttributeError /\ ~ well_formed example
  end.
Proof.
  unfold parse_example, well_formed, example_parsed, snippet_elements.
  destruct (find example "user_input") as [u|]; simpl.
  2: { split; [done|]. by intros [[? ?] _]. }
  destruct (find example "snippets") as [s|]; simpl.
  2: { split; [done|]. by intros [_ [[? ?] _]]. }
  pose proof (parse_snippets_outcome (findall s "snippet") []) as H.
  destruct (parse_snippets (findall s "snippet") []) as [r|e]; simpl.
  - destruct H as [Hall [codes [-> H2]]]. repeat split; eauto.
  - destruct H as [-> Hn]. split; [done|]. by intros [_ [_ ?]].
Qed.

Lemma parse_examples_outcome l acc :
  match parse_examples l acc with
  | Ok r => Forall well_formed l
            /\ exists objs, r = acc ++ objs /\ Forall2 example_parsed l objs
  | Raise e => e = AttributeError /\ ~ Forall well_formed l
  end.
Proof.
  revert acc. induction l as [|example rest IH]; intros acc; simpl.
  - split; [done|]. exists []. by rewrite app_nil_r.
  - pose proof (parse_example_outcome example) as He.
    destruct (parse_example example) as [o|e]; simpl.
    + destruct He as [Hw Hp]. specialize (IH (acc ++ [o])).
      destruct (parse_examples rest (acc ++ [o])) as [r|e].
      * destruct IH as [Hall [objs [-> H2]]]. split; [by constructor|].
        exists (o :: objs). rewrite <- app_assoc. split; [done|by constructor].
      * destruct IH as [-> Hn]. split; [done|]. intros H. apply Hn. by inversion H.
    + destruct He as [-> Hn]. split; [done|]. intros H. apply Hn. by inversion H.
Qed.

(** X5: [parse] returns exactly when every [example] element of the root
    has a [user_input] child, a [snippets] child, and a text in every
    [snippet] of that child; otherwise it raises [AttributeError], and no
    other exception: the subscripts of the loop body are always in range. *)
Theorem parse_fails_on_missing_parts (root : Element) :
  (returns (parse root) <-> Forall well_formed (findall root "example"))
  /\ (returns (parse root) \/ parse root = Raise AttributeError).
Proof.
  unfold parse. pose proof (parse_examples_outcome (findall root "example") []) as H.
  destruct (parse_examples (findall root "example") []) as [r|e].
  - destruct H as [Hall _]. split; [|left; by eexists].
    split; [done|]. intros _. by eexists.
  - destruct H as [-> Hn]. split; [|by right].
    split; [by intros [? ?]|done].
Qed.

(** X6: when [parse] returns, its result has one object per [example]
    element of the root, in document order; elements with other tags are
    skipped.  Each object holds the text of the first [user_input] child,
    which is [None] for an empty element, and one code per [snippet]
    element of the first [snippets] child, in document order. *)
Theorem parse_keeps_document_order (root : Element) (examples : list Example) :
  parse root = Ok examples ->
  Forall2 example_parsed (findall root "example") examples.
Proof.
  unfold parse. intros H.
  pose proof (parse_examples_outcome (findall root "example") []) as Ho.
  rewrite H in Ho. destruct Ho as [_ [objs [-> H2]]]. done.
Qed.

Lemma parse_sample_xml :
  parse sample_xml
  = Ok [ {| user_input := Some "sort a list";
            snippets := [sample_code; EmptyString] |};
         {| user_input := None; snippets := [] |} ].
Proof. vm_compute. reflexivity. Qed.

Lemma parse_keeps_document_order_witness :
  Forall2 example_parsed (findall sample_xml "example")
    [ {| user_input := Some "sort a list";
         snippets := [sample_code; EmptyString] |};
      {| user_input := None; snippets := [] |} ].
Proof. exact (parse_keeps_document_order sample_xml _ parse_sample_xml). Defined.

Lemma Forall2_concat_lists {A B} (R : A -> B -> Prop) ls ks :
  Forall2 (Forall2 R) ls ks -> Forall2 R (concat ls) (concat ks).
Proof. induction 1; simpl; [done|]. by apply Forall2_app. Qed.

(** X7: the retrieval corpus built from a parsed document holds one code
    per [snippet] element that [parse] visits, in document order, also when
    the document has empty [user_input] elements. *)
Theorem corpus_of_parsed_document (root : Element) (dataset : list Example) :
  parse root = Ok dataset ->
  Forall2 snippet_parsed (document_snippets root) (all_snippets dataset).
Proof.
  intros Hp. unfold all_snippets, document_snippets.
  rewrite fold_append_snippets, app_nil_l.
  apply Forall2_concat_lists, Forall2_fmap.
  unfold parse in Hp.
  pose proof (parse_examples_outcome (findall root "example") []) as Ho.
  rewrite Hp in Ho. destruct Ho as [_ [objs [-> H2]]]. simpl.
  eapply Forall2_impl; [exact H2|]. by intros ? ? [_ ?].
Qed.

Lemma corpus_of_parsed_document_witness :
  Forall2 snippet_parsed (document_snippets sample_xml)
    (all_snippets [ {| user_input := Some "sort a list";
                       snippets := [sample_code; EmptyString] |};
                    {| user_input := None; snippets := [] |} ]).
Proof. exact (corpus_of_parsed_document sample_xml _ parse_sample_xml). Defined.

(** ** The shuffle and the split, for any generator *)

Section ShuffleOutcome.
Context `{NumpyRandom} {A : Type}.
Implicit Types x : list A.

Lemma shuffle_from_outcome i : forall g x,
  match shuffle_from i g x with
  | Ok (g', x') => x' ≡ₚ x /\ g' = after_draws g (rev (seq 1 i))
  | Raise e => e = IndexError
  end.
Proof.
  induction i as [|i IH]; intros g x; [done|].
  rewrite seq_S, rev_app_distr. cbn [shuffle_from rev app Nat.add].
  destruct (random_interval g (S i)) as [j g1] eqn:Hj.
  destruct (swap x (S i) j) as [x1|e] eqn:Hs; cbn [mbind result_bind].
  - specialize (IH g1 x1). destruct (shuffle_from i g1 x1) as [[g' x']|e]; [|done].
    destruct IH as [Hp ->]. split.
    + rewrite Hp. by eapply swap_Permutation.
    + unfold after_draws. cbn [fold_left]. by rewrite Hj.
  - unfold swap in Hs. destruct (x !! j); [destruct (x !! S i)|]; congruence.
Qed.

(** X8: whatever the generator delivers, [np.random.shuffle] of a list
    either raises [IndexError] or leaves a permutation of the list, so no
    element is dropped or duplicated; when it returns it has made
    [len(x) - 1] draws, with the bounds [len(x) - 1] down to [1]. *)
Theorem shuffle_permutes_or_raises (g : rng) x :
  match shuffle g x with
  | Ok (g', x') => x' ≡ₚ x /\ g' = after_draws g (rev (seq 1 (length x - 1)))
  | Raise e => e = IndexError
  end.
Proof. apply shuffle_from_outcome. Qed.

End ShuffleOutcome.

(** *** Two runs of the pair sampler *)





Lemma split_cell_short `{NumpyRandom} (g : rng) (pairs : list pair) :
  length pairs <= 1 ->
  split_cell g pairs
  = Ok {| sv_random := g; sv_example_pairs := pairs;
          sv_train_pairs := []; sv_val_pairs := pairs |}.
Proof.
  intros Hl. unfold split_cell.
  assert (Hs : shuffle g pairs = Ok (g, pairs)).
  { unfold shuffle. by replace (length pairs - 1) with 0 by lia. }
  rewrite Hs. simpl. rewrite split_index_floor by lia. simpl.
  assert (Hk : (4 * Z.of_nat (length pairs) / 5 = 0)%Z).
  { apply Z.div_small. lia. }
  rewrite Hk. done.
Qed.

Lemma training_without_pairs `{Torch} (b : blanks) val_pairs P0 :
  exists k',
    training_cell b [] val_pairs P0 = (k', Raise AttributeError)
    /\ P k' = P0 /\ calls k' = [ZeroGrad].
Proof.
  eexists. split.
  - apply training_loop_first_epoch_raises. unfold epoch_body.
    unfold mbind at 1, cell_bind at 1. rewrite training_pass_empty. reflexivity.
  - done.
Qed.

(** X9: a list of fewer than two pairs cannot be trained on, however the
    blanks are filled in: the split draws nothing from the generator and
    puts every pair into the validation set, and the training cell then
    raises [AttributeError] in its first epoch without calling [loss_func]
    or updating [P]. *)
Theorem short_pair_list_cannot_train `{NumpyRandom} `{Torch} (b : blanks)
    (g : rng) (pairs : list pair) (P0 : tensor) :
  length pairs <= 1 ->
  exists sv k',
    split_cell g pairs = Ok sv
    /\ sv_random sv = g
    /\ sv_train_pairs sv = [] /\ sv_val_pairs sv = pairs
    /\ training_cell b (sv_train_pairs sv) (sv_val_pairs sv) P0
       = (k', Raise AttributeError)
    /\ P k' = P0 /\ calls k' = [ZeroGrad].
Proof.
  intros Hl. destruct (training_without_pairs b pairs P0) as (k' & Hk & HP & Hc).
  eexists _, k'. split; [by apply split_cell_short|]. simpl. done.
Qed.

Lemma short_pair_list_cannot_train_witness :
  length [pair_a] <= 1
  /\ exists sv k',
      @split_cell lcg 7%Z [pair_a] = Ok sv
      /\ sv_random sv = 7%Z
      /\ sv_train_pairs sv = [] /\ sv_val_pairs sv = [pair_a]
      /\ @training_cell flat_torch (constant_loss 1) (sv_train_pairs sv) (sv_val_pairs sv)
           P_one
         = (k', Raise AttributeError)
      /\ P k' = P_one /\ calls k' = [ZeroGrad].
Proof.
  split; [simpl; lia|].
  apply (@short_pair_list_cannot_train lcg flat_torch (constant_loss 1) 7%Z [pair_a] P_one).
  simpl. lia.
Defined.


(** ** Every run of the training cell *)

Lemma count_filter_cons (c x : call) l :
  length (filter (fun y => y = c) (x :: l))
  = (if decide (x = c) then 1 else 0) + length (filter (fun y => y = c) l).
Proof. rewrite filter_cons. by destruct (decide (x = c)). Qed.

Lemma filter_call_LossFunc c m (pairs : list pair) :
  is_loss_call c = false -> filter (fun x => x = c) (map (LossFunc m) pairs) = [].
Proof.
  intros Hc. induction pairs as [|p rest IH]; simpl; [done|].
  rewrite filter_cons_False; [done|]. intros <-. done.
Qed.

Lemma range_S n : range (S n) = range n ++ [Z.of_nat n].
Proof. unfold range. by rewrite seq_S, map_app. Qed.

Lemma for_each_app `{Torch} {A} (l1 l2 : list A) (body : A -> cell unit) k :
  for_each (l1 ++ l2) body k
  = match for_each l1 body k with
    | (k1, Ok _) => for_each l2 body k1
    | (k1, Raise e) => (k1, Raise e)
    end.
Proof.
  revert k. induction l1 as [|x l1 IH]; intros k; simpl; [done|].
  unfold mbind, cell_bind.
  destruct (body x k) as [k1 [[]|e]]; [apply IH|done].
Qed.

Lemma for_each_raises `{Torch} {A} (l : list A) (body : A -> cell unit) : forall k k' e,
  for_each l body k = (k', Raise e) ->
  exists x k1 k2, x ∈ l /\ body x k1 = (k2, Raise e).
Proof.
  induction l as [|x l IH]; intros k k' e; simpl; [done|].
  unfold mbind at 1, cell_bind at 1.
  destruct (body x k) as [k1 [[]|e0]] eqn:Hb.
  - intros Hr. destruct (IH _ _ _ Hr) as (y & k2 & k3 & Hy & Hb').
    exists y, k2, k3. split; [by right|done].
  - intros [= <- <-]. exists x, k, k1. split; [by left|done].
Qed.

Lemma py_float_of_int_raises z e : py_float_of_int z = Raise e -> e = OverflowError.
Proof.
  unfold py_float_of_int. cbv zeta.
  destruct (is_infinity _); [by intros [= <-]|done].
Qed.

Lemma tensor_sum_raises `{Torch} (t u : tensor) e :
  tensor_sum t u = Raise e -> e = RuntimeError.
Proof. unfold tensor_sum. destruct (tensor_add t u); [done|by intros [= <-]]. Qed.

Lemma int_operand_raises `{Torch} z e : int_operand z = Raise e -> e = OverflowError.
Proof. unfold int_operand. destruct (tensor_of_int z); [done|by intros [= <-]]. Qed.

Lemma py_add_raises `{Torch} (x y : pyval) e :
  py_add x y = Raise e -> e = TypeError \/ e = OverflowError \/ e = RuntimeError.
Proof.
  destruct x, y; simpl; try done; try (intros [= <-]; by left);
    try (intros ->%tensor_sum_raises; by right; right).
  - destruct (py_float_of_int z) eqn:E; [done|]. simpl. intros [= <-].
    right; left. by eapply py_float_of_int_raises.
  - destruct (int_operand z) eqn:E; simpl.
    + intros ->%tensor_sum_raises. by right; right.
    + intros [= <-]. right; left. by eapply int_operand_raises.
  - destruct (py_float_of_int z) eqn:E; [done|]. simpl. intros [= <-].
    right; left. by eapply py_float_of_int_raises.
  - destruct (int_operand z) eqn:E; simpl.
    + intros ->%tensor_sum_raises. by right; right.
    + intros [= <-]. right; left. by eapply int_operand_raises.
Qed.

Section EveryRun.
Context `{Torch} (b : blanks).

Lemma count_call_loop c v pairs acc :
  is_loss_call c = false ->
  length (filter (fun x => x = c) (loop_calls b v pairs acc)) = 0.
Proof.
  intros Hc. destruct (loop_calls_prefix b v pairs acc) as [n ->].
  by rewrite filter_call_LossFunc.
Qed.

Ltac count_calls :=
  unfold count_call; cbn [calls add_calls trained fst snd];
  repeat first
    [ rewrite filter_app | rewrite length_app | rewrite count_filter_cons
    | rewrite filter_call_LossFunc by done | rewrite count_call_loop by done ];
  repeat case_decide; try done; cbn; lia.

Ltac progress_field :=
  cbn [fst snd];
  first
    [ by split
    | lia
    | reflexivity
    | count_calls
    | by (exists 0%float; cbn; rewrite ?app_nil_r)
    | by (cbn; rewrite ?app_nil_r)
    | by (eexists; cbn; reflexivity) ].

Lemma epoch_body_progress train_pairs val_pairs epoch k k' r :
  epoch_body b train_pairs val_pairs epoch k = (k', r) ->
  exists s, epoch_progress epoch k k' r s.
Proof.
  unfold epoch_body. unfold mbind at 1, cell_bind at 1.
  rewrite training_pass_unfold.
  destruct (sum_losses b (view_of k) train_pairs (VFloat 0)) as [l|e].
  2: { intros [= <- <-]. exists 0. split; progress_field. }
  destruct l as [| | | |t]; try (intros [= <- <-]; exists 0; split; progress_field).
  destruct (grad_fn t) as [g|], (item t) as [x0|];
    try (intros [= <- <-]; exists 1; split; progress_field).
  unfold mbind at 1, cell_bind at 1. rewrite validation_pass_run.
  destruct (val_loss_at b val_pairs (P (trained train_pairs g k))) as [val_loss|e].
  2: { intros [= <- <-]. exists 2. split; progress_field. }
  unfold record_epoch. run_cell.
  destruct (mean_item val_loss (length val_pairs)) as [x|e]; simpl.
  2: { intros [= <- <-]. exists 2. split; progress_field. }
  destruct (mean_item (VTensor t) (length train_pairs)) as [y|e]; simpl.
  - intros [= <- <-]. exists 5. split; progress_field.
  - intros [= <- <-]. exists 4. split; progress_field.
Qed.

Lemma in_step_initial P0 : in_step 0 (initial_kernel P0).
Proof. by split. Qed.

Lemma epoch_body_in_step train_pairs val_pairs n k k' r :
  in_step n k ->
  epoch_body b train_pairs val_pairs (Z.of_nat n) k = (k', r) ->
  (r = Ok tt /\ in_step (S n) k') \/ (exists s e, r = Raise e /\ s < 5 /\ stopped n s k').
Proof.
  intros [Hz Hb Hs Ho He Hl Ht Hg] Hr.
  destruct (epoch_body_progress _ _ _ _ _ _ Hr)
    as [s [Hres Hbound Hty Hgr Hzg Hbw Hst [x Hout] Hep [y Hlo]]].
  destruct (decide (s = 5)) as [->|Hs5].
  - left. split; [by apply Hres|]. simpl in *.
    split; try lia; try congruence.
    + rewrite Hout, length_app. simpl. lia.
    + by rewrite Hep, He, range_S.
    + rewrite Hlo, length_app. simpl. lia.
  - right. exists s. destruct r as [[]|e]; [by destruct Hs5; apply Hres|].
    exists e. split; [done|]. split; [lia|].
    assert (H5 : (5 <=? s) = false) by (apply Nat.leb_gt; lia).
    rewrite H5, app_nil_r in Hlo.
    split; try lia; try congruence.
    + rewrite Hout, length_app. destruct (3 <=? s); simpl; lia.
    + rewrite Hep, He. destruct (4 <=? s); [|by rewrite app_nil_r, Nat.add_0_r].
      by rewrite Nat.add_1_r, range_S.
Qed.

Lemma for_each_in_step train_pairs val_pairs n : forall a k k' r,
  in_step a k ->
  for_each (map Z.of_nat (seq a n)) (epoch_body b train_pairs val_pairs) k = (k', r) ->
  (r = Ok tt /\ in_step (a + n) k')
  \/ (exists a' s e, r = Raise e /\ a <= a' < a + n /\ s < 5 /\ stopped a' s k').
Proof.
  induction n as [|n IH]; intros a k k' r Hk; simpl.
  - intros [= <- <-]. left. by rewrite Nat.add_0_r.
  - unfold mbind at 1, cell_bind at 1.
    destruct (epoch_body b train_pairs val_pairs (Z.of_nat a) k) as [k1 r1] eqn:Hb.
    destruct (epoch_body_in_step _ _ _ _ _ _ Hk Hb) as [[-> Hk1]|(s & e & -> & Hs & Hst)].
    + intros Hr.
      destruct (IH (S a) k1 k' r Hk1 Hr) as [[-> Hk']|(a' & s & e & -> & Ha & Hs & Hst)].
      * left. split; [done|]. by replace (a + S n) with (S a + n) by lia.
      * right. exists a', s, e. split; [done|]. split; [lia|]. by split.
    + intros [= <- <-]. right. exists a, s, e. split; [done|]. split; [lia|]. by split.
Qed.

(** X11: in every run of the training cell, completed or stopped by an
    exception, the histories and the calls stay in step: there are as many
    entries in [losses] as completed epochs, and the numbers of entries of
    [epochs], of lines printed, of optimizer steps, of [backward] calls and
    of [zero_grad] calls follow in this order, each at least the one
    before, the last at most one more than the first and at most
    [num_epochs]; [epochs] holds the indices from 0 in order; and the cell
    returns exactly when [losses] has [num_epochs] entries. *)
Theorem training_history_in_step (train_pairs val_pairs : list pair) (P0 : tensor) :
  let k' := fst (training_cell b train_pairs val_pairs P0) in
  length (losses k') <= length (epochs k')
  /\ length (epochs k') <= length (stdout k')
  /\ length (stdout k') <= count_call Step k'
  /\ count_call Step k' <= count_call Backward k'
  /\ count_call Backward k' <= count_call ZeroGrad k'
  /\ count_call ZeroGrad k' <= length (losses k') + 1
  /\ count_call ZeroGrad k' <= num_epochs
  /\ epochs k' = range (length (epochs k'))
  /\ (snd (training_cell b train_pairs val_pairs P0) = Ok tt
      <-> length (losses k') = num_epochs).
Proof.
  cbv zeta. unfold training_cell, training_loop, range at 1 2 3.
  destruct (for_each _ _ _) as [k' r] eqn:Hr.
  assert (Hlen : forall n, length (range n) = n)
    by (intros n; unfold range; by rewrite length_map, length_seq).
  destruct (for_each_in_step _ _ _ _ _ _ _ (in_step_initial P0) Hr)
    as [[-> [Hz Hb Hs Ho He Hl Ht Hg]]|(a & s & e & -> & Ha & Hs5 & [Hz Hb Hs Ho He Hl Ht Hg])];
    cbn [fst snd]; rewrite He, Hlen.
  - repeat split; try lia; done.
  - assert (Hcases : s = 0 \/ s = 1 \/ s = 2 \/ s = 3 \/ s = 4) by lia.
    destruct Hcases as [->|[->|[->|[->| ->]]]];
      cbn [Nat.leb] in *; repeat split; try lia; try discriminate.
Qed.

(** X12: after every run of the training cell, completed or stopped by an
    exception, autograd is recording again, as before the cell: leaving the
    [torch.no_grad()] block restores it also when the block raises; and
    [types] is still empty. *)
Theorem training_restores_recording (train_pairs val_pairs : list pair) (P0 : tensor) :
  let k' := fst (training_cell b train_pairs val_pairs P0) in
  grad_enabled k' = true /\ types k' = [].
Proof.
  cbv zeta. unfold training_cell, training_loop, range.
  destruct (for_each _ _ _) as [k' r] eqn:Hr.
  destruct (for_each_in_step _ _ _ _ _ _ _ (in_step_initial P0) Hr)
    as [[_ [_ _ _ _ _ _ Ht Hg]]|(a & s & e & _ & _ & _ & [_ _ _ _ _ _ Ht Hg])]; done.
Qed.

(** X13: training stops in the first epoch that is not ready.  When the
    epochs before epoch [e] are ready and epoch [e] is not, the cell raises
    in epoch [e]: [losses] holds the mean training losses of the [e] epochs
    before, [epochs] their indices and possibly [e] itself, and [P] is the
    parameter after [e] optimizer steps, or after [e + 1] when the training
    pass of epoch [e] still went through. *)
Theorem training_stops_at_first_unready_epoch
    (train_pairs val_pairs : list pair) (P0 : tensor) (e : nat) :
  e < num_epochs ->
  (forall i, i < e -> epoch_ready b train_pairs val_pairs P0 i) ->
  ~ epoch_ready b train_pairs val_pairs P0 e ->
  exists k' err,
    training_cell b train_pairs val_pairs P0 = (k', Raise err)
    /\ Ok <$> losses k'
       = (fun i => train_mean_at b train_pairs (P_at b train_pairs P0 i)) <$> seq 0 e
    /\ (epochs k' = range e \/ epochs k' = range (S e))
    /\ (P k' = P_at b train_pairs P0 e \/ P k' = P_at b train_pairs P0 (S e)).
Proof.
  intros He Hready Hnot.
  unfold training_cell, training_loop, range at 1.
  assert (Hsplit : seq 0 num_epochs = seq 0 e ++ e :: seq (S e) (num_epochs - S e)).
  { replace num_epochs with (e + S (num_epochs - S e)) at 1 by lia.
    by rewrite seq_app. }
  rewrite Hsplit, map_app, for_each_app.
  destruct (for_each_epochs b train_pairs val_pairs P0 e 0 (initial_kernel P0))
    as (k & -> & Hk); [apply at_epoch_initial|intros; apply Hready; lia|].
  change (0 + e) with e in Hk.
  cbn [map for_each Nat.add]. unfold mbind at 1, cell_bind at 1.
  destruct (epoch_body b train_pairs val_pairs (Z.of_nat e) k) as [k' r] eqn:Hb.
  destruct r as [[]|err].
  { destruct Hnot. by eapply epoch_body_returns. }
  exists k', err. split; [done|].
  destruct (epoch_body_progress _ _ _ _ _ _ Hb)
    as [s [Hres Hbound _ _ _ _ _ _ Hep [y Hlo]]].
  assert (Hs : s < 5)
    by (destruct (decide (s = 5)) as [->|];
        [by destruct Hres as [_ Hres]; specialize (Hres eq_refl)|lia]).
  destruct Hk as [Hp Hgk Hepk _ Hlk _ _].
  assert (H5 : (5 <=? s) = false) by (apply Nat.leb_gt; lia).
  rewrite H5, app_nil_r in Hlo. rewrite Hlo. split; [done|].
  split.
  - rewrite Hep, Hepk.
    destruct (4 <=? s); [right; by rewrite range_S|left; by rewrite app_nil_r].
  - revert Hb. unfold epoch_body. unfold mbind at 1, cell_bind at 1.
    rewrite training_pass_unfold.
    assert (HPk : P k = P_at b train_pairs P0 e) by (unfold P_at; by rewrite <- Hp).
    assert (Hv : view_of k = {| v_P := P_at b train_pairs P0 e; v_grad_enabled := true |}).
    { unfold view_of. by rewrite HPk, Hgk. }
    rewrite Hv. fold (train_loss_at b train_pairs (P_at b train_pairs P0 e)).
    destruct (train_loss_at b train_pairs (P_at b train_pairs P0 e))
      as [[| | | |t]|e0] eqn:Hsum; try (intros [= <- _]; by left).
    destruct (grad_fn t) as [g|] eqn:Hg, (item t) as [x0|] eqn:Hx0;
      try (intros [= <- _]; by left).
    intros Hb. right.
    assert (HP' : P (trained train_pairs g k) = P_at b train_pairs P0 (S e)).
    { unfold P_at at 1. rewrite (P_at_S b train_pairs P0 e g t Hsum Hg), <- Hp. done. }
    revert Hb. unfold mbind at 1, cell_bind at 1. rewrite validation_pass_run.
    destruct (val_loss_at b val_pairs (P (trained train_pairs g k))) as [val_loss|e1];
      [|by intros [= <- _]].
    intros Hb.
    pose proof (record_epoch_frame train_pairs val_pairs (Z.of_nat e) (VTensor t) val_loss
                  (add_calls (loop_calls b {| v_P := P (trained train_pairs g k);
                                              v_grad_enabled := false |}
                                val_pairs (VFloat 0)) (trained train_pairs g k))) as Hf.
    cbv zeta in Hf. rewrite Hb in Hf. cbn [fst] in Hf. destruct Hf as [-> _]. exact HP'.
Qed.

(** X14: the training cell returns exactly when every one of the
    [num_epochs] epochs is ready. *)
Theorem training_completes_iff_ready (train_pairs val_pairs : list pair) (P0 : tensor) :
  snd (training_cell b train_pairs val_pairs P0) = Ok tt
  <-> forall e, e < num_epochs -> epoch_ready b train_pairs val_pairs P0 e.
Proof.
  rewrite <- training_cell_returns_iff. split.
  - intros Hr. exists (fst (training_cell b train_pairs val_pairs P0)).
    by destruct (training_cell _ _ _ _); simpl in *; subst.
  - by intros [k' ->].
Qed.

Lemma sum_losses_raises v pairs : forall acc e,
  sum_losses b v pairs acc = Raise e ->
  own_error e \/ exists p, p ∈ pairs /\ pair_loss b v p = Raise e.
Proof.
  unfold own_error.
  induction pairs as [|p rest IH]; intros acc e; simpl; [done|].
  destruct (pair_loss b v p) as [loss|e0] eqn:Hp; simpl.
  - destruct (py_add acc loss) as [acc'|e1] eqn:Ha; simpl.
    + intros Hr. destruct (IH _ _ Hr) as [?|(q & Hq & Hl)]; [by left|].
      right. exists q. split; [by right|done].
    + intros [= <-]. left. destruct (py_add_raises _ _ _ Ha) as [?|[?|?]]; tauto.
  - intros [= <-]. right. exists p. split; [by left|done].
Qed.

Lemma mean_item_sum_raises v pairs l e :
  sum_losses b v pairs (VFloat 0) = Ok l ->
  mean_item l (length pairs) = Raise e ->
  e = AttributeError \/ e = RuntimeError.
Proof.
  intros Hs. unfold mean_item.
  destruct l as [| | | |t]; simpl; try (intros [= <-]; by left).
  destruct (item t); simpl; [|intros [= <-]; by right].
  destruct pairs; [done|]. done.
Qed.

Lemma epoch_body_raises train_pairs val_pairs epoch k k' e :
  epoch_body b train_pairs val_pairs epoch k = (k', Raise e) ->
  own_error e \/ exists v p, p ∈ train_pairs ++ val_pairs /\ pair_loss b v p = Raise e.
Proof.
  unfold epoch_body, own_error. unfold mbind at 1, cell_bind at 1.
  rewrite training_pass_unfold.
  destruct (sum_losses b (view_of k) train_pairs (VFloat 0)) as [l|e0] eqn:Hs.
  2: { intros [= _ <-]. destruct (sum_losses_raises _ _ _ _ Hs) as [?|(p & Hp & Hl)];
         [by left|].
       right. exists (view_of k), p. split; [|done]. apply elem_of_app. by left. }
  destruct l as [| | | |t]; try (intros [= _ <-]; left; tauto).
  destruct (grad_fn t) as [g|], (item t) as [x0|] eqn:Hx0;
    try (intros [= _ <-]; left; tauto).
  unfold mbind at 1, cell_bind at 1. rewrite validation_pass_run.
  unfold val_loss_at.
  destruct (sum_losses b _ val_pairs (VFloat 0)) as [val_loss|e0] eqn:Hv.
  2: { intros [= _ <-]. destruct (sum_losses_raises _ _ _ _ Hv) as [?|(p & Hp & Hl)];
         [by left|].
       right. eexists _, p. split; [|exact Hl]. apply elem_of_app. by right. }
  unfold record_epoch. run_cell.
  destruct (mean_item val_loss (length val_pairs)) as [x|e0] eqn:Hm; simpl.
  2: { intros [= _ <-]. destruct (mean_item_sum_raises _ _ _ _ Hv Hm); left; tauto. }
  destruct (mean_item (VTensor t) (length train_pairs)) as [y|e0] eqn:Hm'; simpl; [done|].
  intros [= _ <-]. destruct (mean_item_sum_raises _ _ _ _ Hs Hm'); left; tauto.
Qed.

(** X15: an exception that stops the training cell is [AttributeError],
    [RuntimeError], [TypeError] or [OverflowError], or it was raised by a
    blank, that is by the prediction, the target or [loss_func] for one of
    the pairs.  In particular the two divisions by [len(...)] never raise
    [ZeroDivisionError]: with an empty pair set [item] fails first. *)
Theorem training_error_classes (train_pairs val_pairs : list pair) (P0 : tensor)
    (e : exn) :
  snd (training_cell b train_pairs val_pairs P0) = Raise e ->
  own_error e \/ exists v p, p ∈ train_pairs ++ val_pairs /\ pair_loss b v p = Raise e.
Proof.
  unfold training_cell, training_loop.
  destruct (for_each _ _ _) as [k' r] eqn:Hr. simpl. intros ->.
  destruct (for_each_raises _ _ _ _ _ Hr) as (x & k1 & k2 & _ & Hb).
  by eapply epoch_body_raises.
Qed.

(** X16: when the summed training loss of the first epoch is not a tensor
    that records a gradient, training stops at [train_loss.backward()] of
    the first epoch: with [AttributeError] when the sum is not a tensor,
    with [RuntimeError] when it is a tensor without a gradient function.
    [loss_func] has been called for every training pair, [P] and the
    optimizer are untouched and nothing is printed or recorded. *)
Theorem training_stops_at_backward (train_pairs val_pairs : list pair) (P0 : tensor)
    (train_loss : pyval) :
  train_loss_at b train_pairs P0 = Ok train_loss ->
  match train_loss with VTensor t => grad_fn t = None | _ => True end ->
  exists k',
    training_cell b train_pairs val_pairs P0
    = (k', Raise (match train_loss with VTensor _ => RuntimeError | _ => AttributeError end))
    /\ P k' = P0 /\ optimizer k' = adam_init
    /\ calls k' = [ZeroGrad] ++ map (LossFunc true) train_pairs
                  ++ (match train_loss with VTensor _ => [Backward] | _ => [] end)
    /\ epochs k' = [] /\ losses k' = [] /\ stdout k' = [].
Proof.
  intros Ht Hg.
  assert (Hb : forall k' e,
    training_pass b train_pairs (initial_kernel P0) = (k', Raise e) ->
    training_cell b train_pairs val_pairs P0 = (k', Raise e)).
  { intros k' e Hp. apply training_loop_first_epoch_raises. unfold epoch_body.
    unfold mbind at 1, cell_bind at 1. by rewrite Hp. }
  assert (Hp := training_pass_unfold b train_pairs (initial_kernel P0)).
  change (view_of (initial_kernel P0))
    with {| v_P := P0; v_grad_enabled := true |} in Hp.
  fold (train_loss_at b train_pairs P0) in Hp. rewrite Ht in Hp.
  destruct train_loss as [| | | |t]; try rewrite Hg in Hp;
    (eexists; split; [apply Hb, Hp|]); cbn; by rewrite ?app_nil_r.
Qed.

End EveryRun.

Lemma fragile_loss_ready_0 : epoch_ready fragile_loss [pair_a] [pair_b] P_one 0.
Proof. split; [by eexists _, _, _|by eexists _, _]. Qed.

Lemma fragile_loss_second_sum :
  @train_loss_at flat_torch fragile_loss [pair_a]
    (@P_at flat_torch fragile_loss [pair_a] P_one 1)
  = Raise TypeError.
Proof. reflexivity. Qed.

Lemma fragile_loss_unready_1 : ~ epoch_ready fragile_loss [pair_a] [pair_b] P_one 1.
Proof.
  intros [(t & g & x & Ht & _) _]. rewrite fragile_loss_second_sum in Ht. discriminate.
Qed.

Lemma training_stops_at_first_unready_epoch_witness :
  1 < num_epochs
  /\ (forall i, i < 1 -> epoch_ready fragile_loss [pair_a] [pair_b] P_one i)
  /\ ~ epoch_ready fragile_loss [pair_a] [pair_b] P_one 1
  /\ exists k' err,
      @training_cell flat_torch fragile_loss [pair_a] [pair_b] P_one = (k', Raise err)
      /\ (epochs k' = range 1 \/ epochs k' = range 2).
Proof.
  assert (H1 : 1 < num_epochs) by (unfold num_epochs; lia).
  assert (H2 : forall i, i < 1 -> epoch_ready fragile_loss [pair_a] [pair_b] P_one i).
  { intros i Hi. assert (i = 0) as -> by lia. exact fragile_loss_ready_0. }
  split; [exact H1|]. split; [exact H2|]. split; [exact fragile_loss_unready_1|].
  destruct (@training_stops_at_first_unready_epoch flat_torch fragile_loss
              [pair_a] [pair_b] P_one 1 H1 H2 fragile_loss_unready_1)
    as (k' & err & Hk & _ & He & _).
  exists k', err. split; [exact Hk|exact He].
Defined.

Lemma training_error_classes_witness :
  snd (@training_cell flat_torch (float_loss 1) [pair_a] [pair_b] P_one)
  = Raise AttributeError
  /\ (own_error AttributeError
      \/ exists v p, p ∈ [pair_a] ++ [pair_b]
                     /\ @pair_loss flat_torch (float_loss 1) v p = Raise AttributeError).
Proof.
  split; [vm_compute; reflexivity|].
  apply (@training_error_classes flat_torch (float_loss 1) [pair_a] [pair_b] P_one).
  vm_compute. reflexivity.
Defined.

Lemma float_loss_sum :
  @train_loss_at flat_torch (float_loss 1) [pair_a] P_one = Ok (VFloat 1).
Proof. reflexivity. Qed.

Lemma training_stops_at_backward_witness :
  @train_loss_at flat_torch (float_loss 1) [pair_a] P_one = Ok (VFloat 1)
  /\ exists k',
      @training_cell flat_torch (float_loss 1) [pair_a] [pair_b] P_one
      = (k', Raise AttributeError)
      /\ P k' = P_one
      /\ calls k' = [ZeroGrad; LossFunc true pair_a].
Proof.
  split; [exact float_loss_sum|].
  destruct (@training_stops_at_backward flat_torch (float_loss 1) [pair_a] [pair_b]
              P_one (VFloat 1) float_loss_sum I)
    as (k' & Hk & HP & _ & Hc & _).
  exists k'. split; [exact Hk|]. split; [exact HP|exact Hc].
Defined.
